(** * dt: DNS delegation checks, the helpers of [utils.go]

    A shallow embedding of [utils.go] of the [dt] DNS tool and the
    properties of its helpers: record filtering, RRset resolution,
    nameserver discovery, the RFC 1918 and same-/24 checks, the parent
    domain helper and the scan error classifier. [ipinfo] (a call to an
    outside service) and [rrset2map] carry no stated property and are left
    out.

    Conventions.
    - Go's [int] is the 64-bit two's complement integer: a [Z] wrapped by
      [wrap64] after every operation that can leave the range.
    - [net.IP] and [net.IPMask] are byte slices: [list byte]. A [nil] result
      of [To4] is [None]; a [nil] slice is the empty list.
    - A Go [string] is a byte sequence: Rocq's [string].
    - An [error] is its message; [nil] is [None]. A function returning
      [(T, error)] returns a [result]: the value, or the error (with which
      the code returns an empty value).
    - The network is a state [World] threaded through every exchange.
    - The functions of Go's packages [net], [strings] and [fmt] and of the
      DNS library [github.com/miekg/dns] that the code calls are written
      after the libraries' sources: [To4], [CIDRMask], [Contains],
      [JoinHostPort], [Contains] on strings, the verb [%#v], [NextLabel]. *)

From Stdlib Require Import ZArith NArith Lia List Bool Ascii String.
From Stdlib.Strings Require Import Byte.
From stdpp Require Import base tactics option list gmap strings.

Local Open Scope Z_scope.

(** ** Machine integers *)

(** Go [int] on the 64-bit targets: the representative of [z] in
    [-2^63, 2^63). *)
Definition wrap64 (z : Z) : Z := (z + 2 ^ 63) mod 2 ^ 64 - 2 ^ 63.

(** ** Bytes *)

#[global] Instance byte_eq_dec : EqDecision byte := Byte.byte_eq_dec.

(** The byte with value [n mod 256]. *)
Definition byte_of_N (n : N) : byte :=
  match Byte.of_N (n mod 256) with
  | Some b => b
  | None => x00
  end.

(** Go's [a & b] on bytes. *)
Definition band (a b : byte) : byte :=
  byte_of_N (N.land (Byte.to_N a) (Byte.to_N b)).

(** ** Package [net]: addresses, masks and networks *)

Module net.

Definition IP := list byte.
Definition IPMask := list byte.

Record IPNet := mkIPNet { IPNet_IP : IP; IPNet_Mask : IPMask }.

Definition IPv4len : nat := 4.
Definition IPv6len : nat := 16.

(** [net.IPv4(a, b, c, d)]: the 16-byte form, the IPv4-in-IPv6 prefix
    followed by the four bytes. *)
Definition v4InV6Prefix : list byte :=
  [x00; x00; x00; x00; x00; x00; x00; x00; x00; x00; xff; xff].

Definition IPv4 (a b c d : N) : IP :=
  v4InV6Prefix ++ [byte_of_N a; byte_of_N b; byte_of_N c; byte_of_N d].

Definition isZeros (p : list byte) : bool :=
  forallb (fun b => bool_decide (b = x00)) p.

(** [ip.To4()]: a 4-byte address is returned as it is, a 16-byte address
    with the IPv4-in-IPv6 prefix gives its last four bytes, anything else
    is [nil]. *)
Definition To4 (ip : IP) : option IP :=
  if bool_decide (length ip = IPv4len) then Some ip
  else if bool_decide (length ip = IPv6len)
          && isZeros (take 10 ip)
          && bool_decide (ip !! 10%nat = Some xff)
          && bool_decide (ip !! 11%nat = Some xff)
       then Some (take 4 (drop 12 ip))
       else None.

(** The loop of [CIDRMask]: [l] bytes, [n] leading one bits left. *)
Fixpoint CIDRMask_fill (l : nat) (n : N) : IPMask :=
  match l with
  | O => []
  | S l' =>
      if (8 <=? n)%N then xff :: CIDRMask_fill l' (n - 8)
      else byte_of_N (255 - N.shiftr 255 n) :: CIDRMask_fill l' 0
  end.

(** [net.CIDRMask(ones, bits)]; [nil] (the empty mask) on bad arguments. *)
Definition CIDRMask (ones bits : Z) : IPMask :=
  if negb (bits =? 32) && negb (bits =? 128) then []
  else if (ones <? 0) || (bits <? ones) then []
  else CIDRMask_fill (Z.to_nat (bits / 8)) (Z.to_N ones).

(** [networkNumberAndMask]: the network number in its shortest form and
    the mask cut to the same length; [(nil, nil)] when they do not fit. *)
Definition networkNumberAndMask (n : IPNet) : IP * IPMask :=
  let ip :=
    match To4 (IPNet_IP n) with
    | Some ip4 => Some ip4
    | None =>
        if bool_decide (length (IPNet_IP n) = IPv6len)
        then Some (IPNet_IP n) else None
    end in
  match ip with
  | None => ([], [])
  | Some ip =>
      if bool_decide (length (IPNet_Mask n) = IPv4len) then
        if bool_decide (length ip = IPv4len) then (ip, IPNet_Mask n)
        else ([], [])
      else if bool_decide (length (IPNet_Mask n) = IPv6len) then
        if bool_decide (length ip = IPv4len)
        then (ip, drop 12 (IPNet_Mask n))
        else (ip, IPNet_Mask n)
      else ([], [])
  end.

(** The comparison loop of [Contains], byte by byte under the mask. *)
Fixpoint maskedEq (nn m ip : list byte) : bool :=
  match nn, m, ip with
  | n0 :: nn', m0 :: m', i0 :: ip' =>
      if bool_decide (band n0 m0 = band i0 m0) then maskedEq nn' m' ip'
      else false
  | _, _, _ => true
  end.

(** [n.Contains(ip)]. *)
Definition Contains (n : IPNet) (ip : IP) : bool :=
  let '(nn, m) := networkNumberAndMask n in
  let ip := match To4 ip with Some x => x | None => ip end in
  if bool_decide (length ip = length nn) then maskedEq nn m ip
  else false.

(** [net.ParseIP] on a dotted quad gives the 16-byte form. *)
Definition ParseIP_quad (a b c d : N) : IP := IPv4 a b c d.

End net.

(** ** [isRFC1918] and [isSameSubnet] *)

Definition isRFC1918 (ip : net.IP) : bool :=
  let ten := net.mkIPNet (net.ParseIP_quad 10 0 0 0) (net.CIDRMask 8 32) in
  let oneNineTwo :=
    net.mkIPNet (net.ParseIP_quad 192 168 0 0) (net.CIDRMask 16 32) in
  let oneSevenTwo :=
    net.mkIPNet (net.ParseIP_quad 172 16 0 0) (net.CIDRMask 12 32) in
  net.Contains ten ip || net.Contains oneNineTwo ip
  || net.Contains oneSevenTwo ip.

(** The first loop of [isSameSubnet]: the counter [ipv4] and the /24
    networks of the IPv4 addresses. *)
Definition collectNets (ips : list net.IP) : Z * list net.IPNet :=
  foldl (fun '(ipv4, ipnets) ip =>
           match net.To4 ip with
           | Some _ =>
               (wrap64 (ipv4 + 1),
                ipnets ++ [net.mkIPNet ip (net.CIDRMask 24 32)])
           | None => (ipv4, ipnets)
           end) (0, []) ips.

(** The nested loops of [isSameSubnet]: one increment per pair of a network
    and an address it contains. *)
Definition countContained (ipnets : list net.IPNet) (ips : list net.IP) : Z :=
  foldl (fun count ipnet =>
           foldl (fun count ip =>
                    if net.Contains ipnet ip then wrap64 (count + 1)
                    else count) count ips) 0 ipnets.

Definition isSameSubnet (ips : list net.IP) : bool :=
  let '(ipv4, ipnets) := collectNets ips in
  let count := countContained ipnets ips in
  if count =? wrap64 (ipv4 * Z.of_nat (length ipnets)) then true else false.

(** ** Strings *)

(** [strings.Contains(s, substr)]: [substr] starts at some offset of [s]. *)
Fixpoint strings_Contains (s substr : string) : bool :=
  String.prefix substr s
  || match s with
     | EmptyString => false
     | String _ s' => strings_Contains s' substr
     end.

(** The slice expression [s[i:]]. *)
Fixpoint sliceFrom (i : nat) (s : string) : string :=
  match i, s with
  | O, _ => s
  | S i', String _ s' => sliceFrom i' s'
  | S _, EmptyString => EmptyString
  end.

(** The lower-case hexadecimal digits of [n], least significant last. *)
Definition hexDigit (d : N) : ascii :=
  if (d <? 10)%N then ascii_of_N (48 + d) else ascii_of_N (87 + d).

Fixpoint hexDigits (fuel : nat) (n : N) (acc : string) : string :=
  match fuel with
  | O => acc
  | S fuel' =>
      let acc' := String (hexDigit (n mod 16)) acc in
      if (n / 16 =? 0)%N then acc' else hexDigits fuel' (n / 16) acc'
  end.

(** The verb [%#v] of package [fmt] on a [uint16]: [0x] and the
    hexadecimal digits. *)
Definition fmt_sharpV_uint16 (n : N) : string :=
  "0x" +:+ hexDigits 4 (n mod 65536) "".

(** [net.JoinHostPort]: a host with a colon, taken for a literal IPv6
    address, is put in square brackets. *)
Definition JoinHostPort (host port : string) : string :=
  if strings_Contains host ":"
  then "[" +:+ host +:+ "]:" +:+ port
  else host +:+ ":" +:+ port.

(** ** Package [dns]: records and messages *)

Definition error := string.

Module dns.

Definition TypeA : N := 1.
Definition TypeNS : N := 2.
Definition TypeAAAA : N := 28.
Definition ClassINET : N := 1.

Record RR_Header := mkHeader {
  Name : string; Rrtype : N; Class : N; Ttl : N; Rdlength : N
}.

(** The resource records the program tells apart by their Go type:
    [*dns.A], [*dns.AAAA], [*dns.NS]; every other record type is
    [Other] with its header and uninterpreted data. *)
Inductive RR :=
| A (Hdr : RR_Header) (a : net.IP)
| AAAA (Hdr : RR_Header) (aaaa : net.IP)
| NS (Hdr : RR_Header) (Ns : string)
| Other (Hdr : RR_Header) (rdata : string).

Definition Header (rr : RR) : RR_Header :=
  match rr with
  | A h _ | AAAA h _ | NS h _ | Other h _ => h
  end.

Record Question := mkQuestion {
  QName : string;
  Qtype : N;
  Qclass : N
}.

Record Msg := mkMsg {
  Id : N;
  RecursionDesired : bool;
  CheckingDisabled : bool;
  Rcode : Z;
  Questions : list Question;
  Answer : list RR;
  (** The OPT record set by [SetEdns0]: UDP size and the DO bit. *)
  Edns0 : option (N * bool)
}.

(** [new(dns.Msg)]. *)
Definition zeroMsg : Msg := mkMsg 0 false false 0 [] [] None.

Definition zeroQuestion : Question := mkQuestion "" 0 0.

Definition setId (v : N) (m : Msg) : Msg :=
  mkMsg v (RecursionDesired m) (CheckingDisabled m) (Rcode m)
        (Questions m) (Answer m) (Edns0 m).
Definition setRecursionDesired (v : bool) (m : Msg) : Msg :=
  mkMsg (Id m) v (CheckingDisabled m) (Rcode m)
        (Questions m) (Answer m) (Edns0 m).
Definition setCheckingDisabled (v : bool) (m : Msg) : Msg :=
  mkMsg (Id m) (RecursionDesired m) v (Rcode m)
        (Questions m) (Answer m) (Edns0 m).
Definition setQuestions (v : list Question) (m : Msg) : Msg :=
  mkMsg (Id m) (RecursionDesired m) (CheckingDisabled m) (Rcode m)
        v (Answer m) (Edns0 m).
Definition SetEdns0 (udpsize : N) (do : bool) (m : Msg) : Msg :=
  mkMsg (Id m) (RecursionDesired m) (CheckingDisabled m) (Rcode m)
        (Questions m) (Answer m) (Some (udpsize, do)).

(** What [Client.Exchange] hands back: the reply and the round-trip
    time, or an error. *)
Inductive ExchangeResult :=
| ExchangeOk (reply : Msg) (rtt : Z)
| ExchangeErr (err : error).

(** A record as the wire decoder builds it: the Go type of the record is
    the one of the type code in its header. *)
Definition wireRR (rr : RR) : bool :=
  match rr with
  | A h _ => bool_decide (Rrtype h = TypeA)
  | AAAA h _ => bool_decide (Rrtype h = TypeAAAA)
  | NS h _ => bool_decide (Rrtype h = TypeNS)
  | Other h _ =>
      negb (bool_decide (Rrtype h = TypeA))
      && negb (bool_decide (Rrtype h = TypeAAAA))
      && negb (bool_decide (Rrtype h = TypeNS))
  end.

(** [dns.NextLabel]: the backward scan over the backslashes before the
    dot at [i]. [n] is [j + 1]; the result is the final [j]. *)
Fixpoint NextLabel_back (s : string) (n : nat) : Z :=
  match n with
  | O => -1
  | S j =>
      if bool_decide (String.get j s = Some "\"%char)
      then NextLabel_back s j
      else Z.of_nat j
  end.

(** The loop [for i = offset; i < len(s)-1; i++] with [fuel] iterations
    left. *)
Fixpoint NextLabel_loop (s : string) (fuel i : nat) : Z * bool :=
  match fuel with
  | O => (Z.of_nat i + 1, true)
  | S fuel' =>
      if negb (bool_decide (String.get i s = Some "."%char))
      then NextLabel_loop s fuel' (S i)
      else
        let j := NextLabel_back s i in
        if Z.rem (j - Z.of_nat i) 2 =? 0
        then NextLabel_loop s fuel' (S i)
        else (Z.of_nat i + 1, false)
  end.

(** [dns.NextLabel(s, offset)]: the index of the start of the next label
    and whether the end of the string was reached. *)
Definition NextLabel (s : string) (offset : nat) : Z * bool :=
  if bool_decide (s = "") then (0, true)
  else NextLabel_loop s (String.length s - 1 - offset) offset.

End dns.

(** The environment of the program: the network behind
    [Client.Exchange], the identifier source [dns.Id], the tables
    and helpers of the DNS library the code calls, and the package variable
    [resolver]. *)
Class Env := {
  World : Type;
  Exchange : dns.Msg -> string -> World -> dns.ExchangeResult * World;
  dns_Id : World -> N * World;
  dns_Fqdn : string -> string;
  dns_RcodeToString : Z -> string;
  resolver : string
}.

Inductive result (A : Type) :=
| Ok (a : A)
| Err (e : error).
Arguments Ok {A} a.
Arguments Err {A} e.

(** A Go function that can panic: [None] is the panic. *)
Definition orPanic (A : Type) := option A.

(** ** Types of the program declared outside [utils.go] *)

(** Modelled from the spec: the declarations of [IPInfo], [NSInfo],
    [NSData], [Response], [ReportResult] and [Report] are in another file
    of the repository; the fields are the ones [utils.go] reads or writes
    (section 3 of the specification: a nameserver has a name, an ordered
    sequence of addresses and per-address ownership metadata; a report is an
    append-only list of finding lines). *)
Record IPInfo := mkIPInfo {
  IPInfo_IP : net.IP;
  IPInfo_Country : string;
  IPInfo_ASN : Z;
  IPInfo_ISP : string
}.

Record NSInfo := mkNSInfo {
  NSInfo_IPInfo : IPInfo;
  NSInfo_Name : string
}.

Record NSData := mkNSData {
  NSData_Name : string;
  NSData_IP : list net.IP;
  NSData_Info : list NSInfo
}.

Record Response := mkResponse {
  Response_Msg : dns.Msg;
  Response_Server : string;
  Response_Rtt : Z
}.

Record ReportResult := mkReportResult { ReportResult_Result : string }.

Record Report := mkReport { Report_Result : list ReportResult }.

(** ** The functions of [utils.go] *)

Definition extractIP (rrset : list dns.RR) : list net.IP :=
  foldl (fun ips rr =>
           match rr with
           | dns.A _ a => ips ++ [a]
           | dns.AAAA _ aaaa => ips ++ [aaaa]
           | _ => ips
           end) [] rrset.

Definition extractRR (rrset : list dns.RR) (qtypes : list N) : list dns.RR :=
  let m : gmap N bool :=
    foldl (fun m qtype => <[qtype := true]> m) ∅ qtypes in
  foldl (fun out rr =>
           match m !! dns.Rrtype (dns.Header rr) with
           | Some _ => out ++ [rr]
           | None => out
           end) [] rrset.

Definition extractRRMsg (msg : option dns.Msg) (qtypes : list N)
  : list dns.RR :=
  match msg with
  | Some m => extractRR (dns.Answer m) qtypes
  | None => []
  end.

Section WithEnv.
Context `{Env}.

Definition prepMsg (w : World) : dns.Msg * World :=
  let m := dns.zeroMsg in
  let '(id, w) := dns_Id w in
  let m := dns.setId id m in
  let m := dns.setRecursionDesired true m in
  let m := dns.setQuestions [dns.zeroQuestion] m in
  (m, w).

Definition query (q : string) (qtype : N) (server : string) (sec : bool)
           (w : World) : result Response * World :=
  let '(m, w) := prepMsg w in
  let m := dns.setCheckingDisabled true m in
  let m := dns.setRecursionDesired true m in
  let m := if sec
           then dns.SetEdns0 4096 true (dns.setCheckingDisabled false m)
           else m in
  let m := dns.setQuestions
             (<[0%nat := dns.mkQuestion (dns_Fqdn q) qtype dns.ClassINET]>
                (dns.Questions m)) m in
  let '(ex, w) := Exchange m (JoinHostPort server "53") w in
  match ex with
  | dns.ExchangeErr err => (Err err, w)
  | dns.ExchangeOk reply rtt =>
      if negb (dns.Rcode reply =? 0)
      then (Err ("failure: " +:+ dns_RcodeToString (dns.Rcode reply)), w)
      else (Ok (mkResponse reply server rtt), w)
  end.

Definition queryRRset (q : string) (qtype : N) (server : string)
           (sec : bool) (w : World) : result (list dns.RR * Z) * World :=
  let '(r, w) := query q qtype server sec w in
  match r with
  | Err err => (Err err, w)
  | Ok res =>
      let rrset := extractRR (dns.Answer (Response_Msg res)) [qtype] in
      if (length rrset =? 0)%nat
      then (Err ("no rr for " +:+ fmt_sharpV_uint16 qtype), w)
      else (Ok (rrset, Response_Rtt res), w)
  end.

Definition getIP (host : string) (qtype : N) (server : string) (w : World)
  : list net.IP * World :=
  let '(r, w) := queryRRset host qtype server false w in
  match r with
  | Err _ => ([], w)
  | Ok (rrset, _) => (extractIP rrset, w)
  end.

(** The body of the loop of [findNS] for one record; the type assertion
    [rr.( *dns.NS)] panics on any other record. *)
Definition findNS_step (rr : dns.RR) (w : World) : orPanic NSData * World :=
  match rr with
  | dns.NS _ ns =>
      let ips : list net.IP := [] in
      let '(ipsA, w) := getIP ns dns.TypeA resolver w in
      let ips := ips ++ ipsA in
      let '(ipsAAAA, w) := getIP ns dns.TypeAAAA resolver w in
      let ips := ips ++ ipsAAAA in
      let nsinfos :=
        foldl (fun nsinfos ip =>
                 nsinfos ++ [mkNSInfo (mkIPInfo ip "" 0 "") ns])
              [] ips in
      (Some (mkNSData ns ips nsinfos), w)
  | _ => (None, w)
  end.

(** The loop of [findNS] over the NS records. *)
Fixpoint findNS_loop (rrset : list dns.RR) (nsdatas : list NSData)
         (w : World) : orPanic (list NSData) * World :=
  match rrset with
  | [] => (Some nsdatas, w)
  | rr :: rest =>
      let '(r, w) := findNS_step rr w in
      match r with
      | None => (None, w)
      | Some nsdata => findNS_loop rest (nsdatas ++ [nsdata]) w
      end
  end.

Definition findNS (domain : string) (w : World)
  : orPanic (result (list NSData)) * World :=
  let '(r, w) := queryRRset domain dns.TypeNS resolver false w in
  match r with
  | Err err => (Some (Err err), w)
  | Ok (rrset, _) =>
      let '(r, w) := findNS_loop rrset [] w in
      match r with
      | None => (None, w)
      | Some nsdatas =>
          if (length nsdatas =? 0)%nat
          then (Some (Err "no NS found"), w)
          else (Some (Ok nsdatas), w)
      end
  end.

End WithEnv.

Definition getParentDomain (domain : string) : string :=
  let '(i, end_) := dns.NextLabel domain 0 in
  if negb end_ then sliceFrom (Z.to_nat i) domain else ".".

Definition scanerror (r : Report) (check ns ip domain : string)
           (results : list dns.RR) (err : option error) : bool * Report :=
  let fail := false in
  let '(fail, r) :=
    match err with
    | Some e =>
        let r :=
          if negb (strings_Contains e "NXDOMAIN")
             && negb (strings_Contains e "no rr for")
          then mkReport
                 (Report_Result r ++
                  [mkReportResult
                     ("ERR : " +:+ check +:+ " failed on " +:+ ns
                      +:+ " (" +:+ ip +:+ "): " +:+ e)])
          else r in
        (true, r)
    | None => (fail, r)
    end in
  let fail :=
    if (length results =? 0)%nat && bool_decide (err = None) then true
    else fail in
  (fail, r).

(** ** Vocabulary of the statements *)

(** The value of the IPv4 address [a.b.c.d] as a 32-bit number. *)
Definition quad (a b c d : N) : N :=
  (a * 2 ^ 24 + b * 2 ^ 16 + c * 2 ^ 8 + d)%N.

(** The 32-bit value of an address that has an IPv4 form. *)
Definition ipv4Value (ip : net.IP) : option N :=
  match net.To4 ip with
  | Some [a; b; c; d] =>
      Some (quad (Byte.to_N a) (Byte.to_N b) (Byte.to_N c) (Byte.to_N d))
  | _ => None
  end.

(** [x] lies in the network [base/len]: both have the same [len] leading
    bits. *)
Definition inCIDR (base len x : N) : Prop :=
  (x / 2 ^ (32 - len) = base / 2 ^ (32 - len))%N.

(** Two addresses with an IPv4 form lie in one /24 network. *)
Definition same24 (a b : net.IP) : Prop :=
  exists x y, ipv4Value a = Some x /\ ipv4Value b = Some y
              /\ (x / 2 ^ 8 = y / 2 ^ 8)%N.

(** An address with an IPv4 form: [ip.To4() != nil]. *)
Definition isIPv4 (ip : net.IP) : Prop := is_Some (net.To4 ip).

(** The number of elements of [l] that pass [f]. *)
Fixpoint countIf {A} (f : A -> bool) (l : list A) : nat :=
  match l with
  | [] => 0
  | x :: l' => (if f x then 1 else 0) + countIf f l'
  end.

(** The number of pairs of a network of [ipnets] and an address of [ips]
    inside it. *)
Fixpoint pairsContained (ipnets : list net.IPNet) (ips : list net.IP) : nat :=
  match ipnets with
  | [] => 0
  | n :: ipnets' =>
      countIf (net.Contains n) ips + pairsContained ipnets' ips
  end.

(** The /24 network of an address, as [isSameSubnet] builds it. *)
Definition net24 (ip : net.IP) : net.IPNet :=
  net.mkIPNet ip (net.CIDRMask 24 32).

Definition hasTo4 (ip : net.IP) : bool :=
  match net.To4 ip with Some _ => true | None => false end.


(** The number of consecutive backslashes just before index [i] of [s]. *)
Fixpoint backslashesBefore (s : string) (i : nat) : nat :=
  match i with
  | O => 0
  | S j =>
      if bool_decide (String.get j s = Some "\"%char)
      then S (backslashesBefore s j)
      else 0
  end.

(** A label boundary of [s] at index [i]: a dot that is not escaped (an
    even number of backslashes before it) and that is followed by at least
    one more byte, the start of the next label. *)
Definition boundaryAt (s : string) (i : nat) : Prop :=
  String.get i s = Some "."%char
  /\ Nat.even (backslashesBefore s i) = true
  /\ (i + 1 < String.length s)%nat.

(** The first label boundary of [s]. *)
Definition firstBoundary (s : string) (i : nat) : Prop :=
  boundaryAt s i /\ forall k, (k < i)%nat -> ~ boundaryAt s k.


Section EnvVocabulary.
Context `{Env}.

(** The message [query] hands to [Exchange], and the world once the
    message identifier is drawn. *)
Definition queryMsg (q : string) (qtype : N) (sec : bool) (w : World)
  : dns.Msg * World :=
  let '(id, w) := dns_Id w in
  (dns.mkMsg id true (negb sec) 0
             [dns.mkQuestion (dns_Fqdn q) qtype dns.ClassINET] []
             (if sec then Some (4096%N, true) else None),
   w).

(** Every reply of the network is a decoded wire message: the Go type of
    each answer record is the one of its type code. *)
Definition wireExchange : Prop :=
  forall m addr w reply rtt w',
    Exchange m addr w = (dns.ExchangeOk reply rtt, w') ->
    forallb dns.wireRR (dns.Answer reply) = true.

(** The world in which the loop of [findNS] reaches the record of index
    [k], started in [w]. *)
Fixpoint worldBefore (rrset : list dns.RR) (k : nat) (w : World) : World :=
  match k, rrset with
  | S k', rr :: rest => worldBefore rest k' (snd (findNS_step rr w))
  | _, _ => w
  end.

End EnvVocabulary.

Definition isA (rr : dns.RR) : Prop := exists h a, rr = dns.A h a.
Definition isAAAA (rr : dns.RR) : Prop := exists h a, rr = dns.AAAA h a.
Definition isNS (rr : dns.RR) : Prop := exists h ns, rr = dns.NS h ns.


(** The records a lookup hands to its caller: none on an error. *)
Definition lookupRecords (r : result (list dns.RR * Z)) : list dns.RR :=
  match r with
  | Ok (rrset, _) => rrset
  | Err _ => []
  end.

Definition isErr {A} (r : result A) : Prop :=
  match r with
  | Ok _ => False
  | Err _ => True
  end.

(** The address of an address record. *)
Definition addrOf (rr : dns.RR) : option net.IP :=
  match rr with
  | dns.A _ a => Some a
  | dns.AAAA _ aaaa => Some aaaa
  | _ => None
  end.

(** The ownership entries [findNS] attaches to the addresses of [ns]. *)
Definition nsinfosOf (ns : string) (ips : list net.IP) : list NSInfo :=
  map (fun ip => mkNSInfo (mkIPInfo ip "" 0 "") ns) ips.


(** ** A test network

    The zone of the specification's discovery example: [example.com] is
    served by [ns1.example.com.], which has the address 203.0.113.1 and no
    AAAA record, and by [ns2.example.com.], whose lookups time out; every
    other question is refused. The world counts the exchanges. *)
Module TestNet.

Definition hdr (name : string) (rrtype : N) : dns.RR_Header :=
  dns.mkHeader name rrtype dns.ClassINET 3600 0.

Definition reply (rcode : Z) (answer : list dns.RR) : dns.Msg :=
  dns.mkMsg 0 true false rcode [] answer None.

Definition answer (q : dns.Question) : dns.ExchangeResult :=
  if bool_decide (dns.QName q = "ns2.example.com.") then
    dns.ExchangeErr "read udp 192.0.2.53:53: i/o timeout"
  else if bool_decide (dns.QName q = "example.com.")
          && bool_decide (dns.Qtype q = dns.TypeNS) then
    dns.ExchangeOk
      (reply 0 [dns.NS (hdr "example.com." dns.TypeNS) "ns1.example.com.";
                dns.NS (hdr "example.com." dns.TypeNS) "ns2.example.com."])
      12000000
  else if bool_decide (dns.QName q = "ns1.example.com.")
          && bool_decide (dns.Qtype q = dns.TypeA) then
    dns.ExchangeOk
      (reply 0 [dns.A (hdr "ns1.example.com." dns.TypeA)
                      (net.IPv4 203 0 113 1)])
      7000000
  else if bool_decide (dns.QName q = "ns1.example.com.") then
    dns.ExchangeOk (reply 0 []) 7000000
  else
    dns.ExchangeOk (reply 5 []) 3000000.

Fixpoint endsWithDot (s : string) : bool :=
  match s with
  | EmptyString => false
  | String c EmptyString => bool_decide (c = "."%char)
  | String _ s' => endsWithDot s'
  end.

Definition Fqdn (s : string) : string :=
  if endsWithDot s then s else s +:+ ".".

Definition RcodeToString (rcode : Z) : string :=
  if rcode =? 0 then "NOERROR"
  else if rcode =? 2 then "SERVFAIL"
  else if rcode =? 3 then "NXDOMAIN"
  else if rcode =? 5 then "REFUSED"
  else "".

Definition env : Env := {|
  World := nat;
  Exchange m addr w :=
    (match dns.Questions m with
     | [q] => answer q
     | _ => dns.ExchangeErr "dns: bad question section"
     end, S w);
  dns_Id w := (N.of_nat w, w);
  dns_Fqdn := Fqdn;
  dns_RcodeToString := RcodeToString;
  resolver := "192.0.2.53"
|}.

End TestNet.


(** The NS records of the test zone and the result of discovery on it. *)
Definition testNSRecords : list dns.RR :=
  [dns.NS (TestNet.hdr "example.com." dns.TypeNS) "ns1.example.com.";
   dns.NS (TestNet.hdr "example.com." dns.TypeNS) "ns2.example.com."].

Definition testNSData : list NSData :=
  [mkNSData "ns1.example.com." [net.IPv4 203 0 113 1]
            [mkNSInfo (mkIPInfo (net.IPv4 203 0 113 1) "" 0 "")
                      "ns1.example.com."];
   mkNSData "ns2.example.com." [] []].


(** ** [rrset2map]

    A [dns.RR] is an interface value holding a pointer to a record, and a
    map keyed by [dns.RR] compares its keys by the identity of the record
    pointed to. [rrset2map] uses the records as keys only: its model is over
    any key type with decidable equality, the record identities. The map
    argument is updated in place and returned: the result is its new
    state. *)
Section RRsetMap.
Context `{Countable RRptr}.


End RRsetMap.

(** A network on which no name exists: every question is answered with
    the response code 3. *)
Module NXNet.

Definition env : Env := {|
  World := nat;
  Exchange m addr w := (dns.ExchangeOk (TestNet.reply 3 []) 5000000, S w);
  dns_Id w := (N.of_nat w, w);
  dns_Fqdn := TestNet.Fqdn;
  dns_RcodeToString := TestNet.RcodeToString;
  resolver := "192.0.2.53"
|}.

End NXNet.

(** * Properties *)

(** ** Record filtering: [extractRR] *)

(** The map built from the requested types holds exactly those types. *)
Lemma qtypes_map_lookup (qtypes : list N) (m0 : gmap N bool) (t : N) :
  is_Some (foldl (fun m qtype => <[qtype := true]> m) m0 qtypes !! t)
  <-> is_Some (m0 !! t) \/ t ∈ qtypes.
Proof.
  revert m0. induction qtypes as [|q qtypes IH]; intros m0; simpl.
  - rewrite elem_of_nil. tauto.
  - rewrite IH, elem_of_cons. destruct (decide (q = t)) as [->|Hne].
    + rewrite lookup_insert_eq. split; [intros _|intros _; left; by eexists].
      right. by left.
    + rewrite lookup_insert_ne by done. split; [tauto|].
      intros [?|[?|?]]; [tauto|congruence|tauto].
Qed.

(** The appending loop of [extractRR] is a filter put behind the
    accumulator. *)
Lemma extractRR_loop (m : gmap N bool) (P : dns.RR -> Prop)
      `{!forall rr, Decision (P rr)} (rrset acc : list dns.RR) :
  (forall rr, is_Some (m !! dns.Rrtype (dns.Header rr)) <-> P rr) ->
  foldl (fun out rr =>
           match m !! dns.Rrtype (dns.Header rr) with
           | Some _ => out ++ [rr]
           | None => out
           end) acc rrset
  = acc ++ filter P rrset.
Proof.
  intros Hm. revert acc.
  induction rrset as [|rr rrset IH]; intros acc; simpl.
  - by rewrite app_nil_r.
  - rewrite IH. destruct (m !! dns.Rrtype (dns.Header rr)) as [b|] eqn:E.
    + rewrite filter_cons_True by (apply Hm; rewrite E; by eexists).
      by rewrite <- app_assoc.
    + rewrite filter_cons_False; [done|].
      intros HP. apply Hm in HP. rewrite E in HP. by destruct HP.
Qed.

Lemma extractRR_filter (rrset : list dns.RR) (qtypes : list N) :
  extractRR rrset qtypes
  = filter (fun rr => dns.Rrtype (dns.Header rr) ∈ qtypes) rrset.
Proof.
  unfold extractRR.
  rewrite (extractRR_loop _ (fun rr => dns.Rrtype (dns.Header rr) ∈ qtypes));
    [done|].
  intros rr. rewrite qtypes_map_lookup, lookup_empty.
  split; [intros [[? ?]|?]; [discriminate|done]|by right].
Qed.

(** C6. [extractRR] keeps exactly the records whose type is one of the
    requested types, in the order of the input: the result is the input
    filtered by the type test, hence a subsequence of the input in which
    every record has a requested type and in which every input record of a
    requested type occurs. The function reads its arguments and builds a
    new list: no state is involved. *)
Theorem extractRR_spec (rrset : list dns.RR) (qtypes : list N) :
  extractRR rrset qtypes
  = filter (fun rr => dns.Rrtype (dns.Header rr) ∈ qtypes) rrset
  /\ extractRR rrset qtypes `sublist_of` rrset
  /\ (forall rr, rr ∈ extractRR rrset qtypes ->
                 dns.Rrtype (dns.Header rr) ∈ qtypes)
  /\ (forall rr, rr ∈ rrset -> dns.Rrtype (dns.Header rr) ∈ qtypes ->
                 rr ∈ extractRR rrset qtypes).
Proof.
  rewrite extractRR_filter. split; [done|]. split; [apply sublist_filter|].
  split; intros rr.
  - rewrite list_elem_of_filter. tauto.
  - intros Hin Ht. apply list_elem_of_filter. done.
Qed.

(** ** The scan error classifier: [scanerror] *)

Lemma prefix_append (x s : string) : String.prefix x (x +:+ s) = true.
Proof.
  induction x as [|c x IH]; simpl; [by destruct s|].
  destruct (ascii_dec c c); [done|congruence].
Qed.

Lemma strings_Contains_here (x s : string) :
  strings_Contains (x +:+ s) x = true.
Proof.
  assert (Hpre : forall t, String.prefix x t = true ->
                           strings_Contains t x = true).
  { intros [|c t] Ht; simpl in *; rewrite Ht; done. }
  apply Hpre, prefix_append.
Qed.

Lemma strings_Contains_skip (p s x : string) :
  strings_Contains s x = true -> strings_Contains (p +:+ s) x = true.
Proof.
  intros Hs. induction p as [|c p IH]; simpl; [done|].
  rewrite IH. apply orb_true_r.
Qed.

Lemma strings_Contains_self (x : string) : strings_Contains x x = true.
Proof.
  assert (Hx : x +:+ "" = x).
  { induction x as [|c x IH]; [done|].
    change (String c (x +:+ "") = String c x). by f_equal. }
  rewrite <- Hx at 1. apply strings_Contains_here.
Qed.

(** C9. Without an error and with no record, the classifier reports a
    failure and leaves the report as it is. More generally, without an
    error the report is never touched, and the failure is reported exactly
    when there is no record. *)
Theorem scanerror_no_error_no_records
        (r : Report) (check ns ip domain : string) :
  scanerror r check ns ip domain [] None = (true, r)
  /\ forall results : list dns.RR,
      scanerror r check ns ip domain results None
      = (bool_decide (results = []), r).
Proof.
  split; [reflexivity|]. intros results. unfold scanerror.
  destruct results as [|rr results]; reflexivity.
Qed.

(** C2 as stated asks for the domain in the finding line; the line is
    built from the check, the server, the address and the error text only,
    and here it does not hold the domain. *)
Lemma scanerror_finding_without_domain :
  let '(fail, r') :=
    scanerror (mkReport []) "NS" "ns1.example.net" "192.0.2.53"
              "example.org" [] (Some "i/o timeout") in
  ~ (fail = true
     /\ exists line, Report_Result r' = [line]
        /\ strings_Contains (ReportResult_Result line) "NS" = true
        /\ strings_Contains (ReportResult_Result line) "ns1.example.net" = true
        /\ strings_Contains (ReportResult_Result line) "example.org" = true).
Proof.
  vm_compute. intros [_ (line & Hline & _ & _ & Hdom)].
  injection Hline as <-. vm_compute in Hdom. discriminate.
Qed.

(** C2, amended. With an error, the classifier always reports a failure.
    When the message contains [NXDOMAIN] or [no rr for] the report is left
    as it is; otherwise exactly one finding is appended, the line
    [ERR : <check> failed on <ns> (<ip>): <error>], which contains the check
    name, the server, the address and the error text. *)
Theorem scanerror_with_error
        (r : Report) (check ns ip domain : string)
        (results : list dns.RR) (e : error) :
  let '(fail, r') := scanerror r check ns ip domain results (Some e) in
  fail = true
  /\ if strings_Contains e "NXDOMAIN" || strings_Contains e "no rr for"
     then r' = r
     else exists line,
         Report_Result r' = Report_Result r ++ [line]
         /\ ReportResult_Result line
            = "ERR : " +:+ check +:+ " failed on " +:+ ns
              +:+ " (" +:+ ip +:+ "): " +:+ e
         /\ strings_Contains (ReportResult_Result line) check = true
         /\ strings_Contains (ReportResult_Result line) ns = true
         /\ strings_Contains (ReportResult_Result line) ip = true
         /\ strings_Contains (ReportResult_Result line) e = true.
Proof.
  unfold scanerror.
  destruct (strings_Contains e "NXDOMAIN") eqn:E1;
    destruct (strings_Contains e "no rr for") eqn:E2; simpl;
    rewrite ?andb_false_r; (split; [done|]); try done.
  eexists. split; [done|]. cbn [ReportResult_Result]. split; [done|].
  split; [|split; [|split]].
  - apply strings_Contains_skip, strings_Contains_here.
  - do 3 apply strings_Contains_skip. apply strings_Contains_here.
  - do 5 apply strings_Contains_skip. apply strings_Contains_here.
  - do 7 apply strings_Contains_skip. apply strings_Contains_self.
Qed.

(** ** Addresses and networks *)

Lemma To4_length (ip v4 : net.IP) : net.To4 ip = Some v4 -> length v4 = 4%nat.
Proof.
  unfold net.To4. case_bool_decide as H4; [by intros [= <-]|].
  destruct (_ && _) eqn:E; [|done]. intros [= <-].
  repeat (apply andb_prop in E as [E ?]). apply bool_decide_eq_true in E.
  unfold net.IPv6len in E.
  rewrite length_take, length_drop, E. done.
Qed.

Lemma To4_quad (ip v4 : net.IP) :
  net.To4 ip = Some v4 -> exists a b c d, v4 = [a; b; c; d].
Proof.
  intros H%To4_length. destruct v4 as [|a [|b [|c [|d [|]]]]]; try done.
  by exists a, b, c, d.
Qed.

Lemma To4_IPv4 (a b c d : N) :
  net.To4 (net.IPv4 a b c d)
  = Some [byte_of_N a; byte_of_N b; byte_of_N c; byte_of_N d].
Proof. reflexivity. Qed.

Lemma To4_four (a b c d : byte) : net.To4 [a; b; c; d] = Some [a; b; c; d].
Proof. reflexivity. Qed.

Lemma To4_None_length (ip : net.IP) : net.To4 ip = None -> length ip <> 4%nat.
Proof. unfold net.To4. case_bool_decide; [done|]. by intros _. Qed.

(** A network made of an address with an IPv4 form and a 4-byte mask
    compares the four bytes under the mask, and holds no address without an
    IPv4 form. *)
Lemma Contains_v4 (nip : net.IP) (n0 n1 n2 n3 m0 m1 m2 m3 : byte)
      (ip : net.IP) :
  net.To4 nip = Some [n0; n1; n2; n3] ->
  net.Contains (net.mkIPNet nip [m0; m1; m2; m3]) ip
  = match net.To4 ip with
    | Some [a; b; c; d] =>
        bool_decide (band n0 m0 = band a m0)
        && bool_decide (band n1 m1 = band b m1)
        && bool_decide (band n2 m2 = band c m2)
        && bool_decide (band n3 m3 = band d m3)
    | _ => false
    end.
Proof.
  intros Hn. unfold net.Contains, net.networkNumberAndMask.
  cbn [net.IPNet_IP net.IPNet_Mask]. rewrite Hn.
  change (bool_decide (length [m0; m1; m2; m3] = net.IPv4len)) with true.
  change (bool_decide (length [n0; n1; n2; n3] = net.IPv4len)) with true.
  cbn iota. destruct (net.To4 ip) as [v4|] eqn:E.
  - destruct (To4_quad _ _ E) as (a & b & c & d & ->).
    change (bool_decide (length [a; b; c; d] = length [n0; n1; n2; n3]))
      with true. cbn [net.maskedEq].
    repeat case_bool_decide; done.
  - apply To4_None_length in E. case_bool_decide; [done|done].
Qed.

Lemma band_ff (x : byte) : band x xff = x.
Proof. destruct x; reflexivity. Qed.

Lemma band_00 (x : byte) : band x x00 = x00.
Proof. destruct x; reflexivity. Qed.

Lemma band_f0_10 (x : byte) :
  bool_decide (band x10 xf0 = band x xf0)
  = ((16 <=? Byte.to_N x)%N && (Byte.to_N x <=? 31)%N).
Proof. destruct x; reflexivity. Qed.

Lemma to_N_inj (x y : byte) : Byte.to_N x = Byte.to_N y -> x = y.
Proof.
  intros Hxy. assert (Some x = Some y) as [= ->]; [|done].
  by rewrite <- !Byte.of_to_N, Hxy.
Qed.

Lemma to_N_lt (x : byte) : (Byte.to_N x < 256)%N.
Proof. pose proof (Byte.to_N_bounded x). lia. Qed.

Lemma byte_eq_to_N (x y : byte) :
  bool_decide (x = y) = (Byte.to_N x =? Byte.to_N y)%N.
Proof.
  case_bool_decide as Hxy; symmetry.
  - subst. apply N.eqb_refl.
  - apply N.eqb_neq. intros ?%to_N_inj. done.
Qed.

Lemma CIDRMask_8 : net.CIDRMask 8 32 = [xff; x00; x00; x00].
Proof. reflexivity. Qed.
Lemma CIDRMask_12 : net.CIDRMask 12 32 = [xff; xf0; x00; x00].
Proof. reflexivity. Qed.
Lemma CIDRMask_16 : net.CIDRMask 16 32 = [xff; xff; x00; x00].
Proof. reflexivity. Qed.
Lemma CIDRMask_24 : net.CIDRMask 24 32 = [xff; xff; xff; x00].
Proof. reflexivity. Qed.

(** [isRFC1918] on the four bytes of an address with an IPv4 form. *)
Lemma isRFC1918_bytes (ip : net.IP) :
  isRFC1918 ip
  = match net.To4 ip with
    | Some [a; b; c; d] =>
        (Byte.to_N a =? 10)%N
        || ((Byte.to_N a =? 192)%N && (Byte.to_N b =? 168)%N)
        || ((Byte.to_N a =? 172)%N
            && (16 <=? Byte.to_N b)%N && (Byte.to_N b <=? 31)%N)
    | _ => false
    end.
Proof.
  unfold isRFC1918, net.ParseIP_quad.
  rewrite CIDRMask_8, CIDRMask_12, CIDRMask_16.
  rewrite !(Contains_v4 _ _ _ _ _ _ _ _ _ _ (To4_IPv4 _ _ _ _)).
  destruct (net.To4 ip) as [v4|] eqn:E; [|done].
  destruct (To4_quad _ _ E) as (a & b & c & d & ->).
  rewrite !band_ff, !band_00, band_f0_10.
  rewrite !(bool_decide_eq_true_2 (x00 = x00)) by done.
  rewrite !andb_true_r, !byte_eq_to_N.
  change (Byte.to_N (byte_of_N 10)) with 10%N.
  change (Byte.to_N (byte_of_N 192)) with 192%N.
  change (Byte.to_N (byte_of_N 168)) with 168%N.
  change (Byte.to_N (byte_of_N 172)) with 172%N.
  rewrite !(N.eqb_sym _ (Byte.to_N _)), andb_assoc. done.
Qed.

(** C7. [isRFC1918] is true exactly for the addresses that have an IPv4
    form whose value lies in 10.0.0.0/8, 172.16.0.0/12 or 192.168.0.0/16;
    it is true for 10.1.2.3, 172.16.0.5 and 192.168.1.1 and false for
    8.8.8.8. *)
Theorem isRFC1918_spec :
  (forall ip : net.IP,
      isRFC1918 ip = true
      <-> exists x, ipv4Value ip = Some x
                    /\ (inCIDR (quad 10 0 0 0) 8 x
                        \/ inCIDR (quad 172 16 0 0) 12 x
                        \/ inCIDR (quad 192 168 0 0) 16 x))
  /\ isRFC1918 (net.IPv4 10 1 2 3) = true
  /\ isRFC1918 (net.IPv4 172 16 0 5) = true
  /\ isRFC1918 (net.IPv4 192 168 1 1) = true
  /\ isRFC1918 (net.IPv4 8 8 8 8) = false.
Proof.
  split; [|repeat split; reflexivity].
  intros ip. rewrite isRFC1918_bytes. unfold ipv4Value.
  destruct (net.To4 ip) as [v4|] eqn:E;
    [|split; [done|by intros (x & ? & _)]].
  destruct (To4_quad _ _ E) as (a & b & c & d & ->).
  pose proof (to_N_lt a). pose proof (to_N_lt b).
  pose proof (to_N_lt c). pose proof (to_N_lt d).
  assert (Hin : forall x,
    x = quad (Byte.to_N a) (Byte.to_N b) (Byte.to_N c) (Byte.to_N d) ->
    (inCIDR (quad 10 0 0 0) 8 x \/ inCIDR (quad 172 16 0 0) 12 x
     \/ inCIDR (quad 192 168 0 0) 16 x)
    <-> (Byte.to_N a = 10
         \/ (Byte.to_N a = 192 /\ Byte.to_N b = 168)
         \/ (Byte.to_N a = 172 /\ 16 <= Byte.to_N b /\ Byte.to_N b <= 31))%N).
  { intros x ->. unfold inCIDR, quad.
    change (2 ^ (32 - 8))%N with 16777216%N.
    change (2 ^ (32 - 12))%N with 1048576%N.
    change (2 ^ (32 - 16))%N with 65536%N.
    change (2 ^ 24)%N with 16777216%N. change (2 ^ 16)%N with 65536%N.
    change (2 ^ 8)%N with 256%N.
    zify. Z.to_euclidean_division_equations. lia. }
  rewrite !orb_true_iff, !andb_true_iff, !N.eqb_eq, !N.leb_le.
  split.
  - intros Hb. eexists. split; [done|]. apply Hin; [done|]. tauto.
  - intros (x & [= <-] & Hx). apply Hin in Hx; [|done]. tauto.
Qed.

(** ** Wrap-around of the counters *)

Lemma wrap64_small (z : Z) : - 2 ^ 63 <= z < 2 ^ 63 -> wrap64 z = z.
Proof.
  intros Hz. unfold wrap64.
  change (2 ^ 63) with 9223372036854775808 in *.
  change (2 ^ 64) with 18446744073709551616.
  Z.to_euclidean_division_equations. lia.
Qed.

Lemma wrap64_succ (z : Z) : wrap64 (wrap64 z + 1) = wrap64 (z + 1).
Proof.
  unfold wrap64.
  change (2 ^ 63) with 9223372036854775808.
  change (2 ^ 64) with 18446744073709551616.
  Z.to_euclidean_division_equations. lia.
Qed.

(** Below [2^64] two counters that wrap to the same value are equal. *)
Lemma wrap64_eq_iff (x y : Z) :
  0 <= x <= y -> y < 2 ^ 64 -> wrap64 x = wrap64 y <-> x = y.
Proof.
  intros Hx Hy. split; [|by intros ->]. unfold wrap64.
  change (2 ^ 63) with 9223372036854775808.
  change (2 ^ 64) with 18446744073709551616 in *.
  Z.to_euclidean_division_equations. lia.
Qed.

(** ** The loops of [isSameSubnet] *)

Lemma countIf_le {A} (f : A -> bool) (l : list A) :
  (countIf f l <= length l)%nat.
Proof. induction l as [|x l IH]; simpl; [lia|destruct (f x); lia]. Qed.

Lemma countIf_all {A} (f : A -> bool) (l : list A) :
  countIf f l = length l <-> forall x, x ∈ l -> f x = true.
Proof.
  induction l as [|x l IH]; simpl.
  - split; [intros _ y Hy; by apply elem_of_nil in Hy|done].
  - pose proof (countIf_le f l). destruct (f x) eqn:E.
    + split.
      * intros Hc y [->|Hy]%elem_of_cons; [done|]. apply IH; [lia|done].
      * intros Hall. f_equal. apply IH. intros y Hy. apply Hall.
        by apply elem_of_cons; right.
    + split; [lia|]. intros Hall.
      specialize (Hall x (list_elem_of_here _ _)). congruence.
Qed.

Lemma countIf_filter {A} (f g : A -> bool) (l : list A) :
  (forall x, f x = true -> g x = true) ->
  countIf f l = countIf f (List.filter g l).
Proof.
  intros Hfg. induction l as [|x l IH]; simpl; [done|].
  destruct (g x) eqn:Eg; simpl; [by rewrite IH|].
  destruct (f x) eqn:Ef; [|done]. apply Hfg in Ef. congruence.
Qed.

Lemma collectNets_loop (ips : list net.IP) (c : Z) (nets : list net.IPNet) :
  foldl (fun '(ipv4, ipnets) ip =>
           match net.To4 ip with
           | Some _ => (wrap64 (ipv4 + 1), ipnets ++ [net24 ip])
           | None => (ipv4, ipnets)
           end) (wrap64 c, nets) ips
  = (wrap64 (c + Z.of_nat (length (List.filter hasTo4 ips))),
     nets ++ map net24 (List.filter hasTo4 ips)).
Proof.
  revert c nets. induction ips as [|ip ips IH]; intros c nets; simpl.
  - by rewrite Z.add_0_r, app_nil_r.
  - assert (Hh : hasTo4 ip = match net.To4 ip with
                               | Some _ => true | None => false end) by done.
    rewrite Hh. destruct (net.To4 ip); simpl.
    + rewrite wrap64_succ, IH, <- app_assoc. do 2 f_equal. lia.
    + apply IH.
Qed.

Lemma collectNets_eq (ips : list net.IP) :
  collectNets ips
  = (wrap64 (Z.of_nat (length (List.filter hasTo4 ips))),
     map net24 (List.filter hasTo4 ips)).
Proof.
  unfold collectNets. change (0, []) with (wrap64 0, @nil net.IPNet).
  apply (collectNets_loop ips 0 []).
Qed.

Lemma countContained_inner (n : net.IPNet) (ips : list net.IP) (c : Z) :
  foldl (fun count ip =>
           if net.Contains n ip then wrap64 (count + 1) else count)
        (wrap64 c) ips
  = wrap64 (c + Z.of_nat (countIf (net.Contains n) ips)).
Proof.
  revert c. induction ips as [|ip ips IH]; intros c; simpl.
  - by rewrite Z.add_0_r.
  - destruct (net.Contains n ip).
    + rewrite wrap64_succ, IH. f_equal. lia.
    + rewrite IH. done.
Qed.

Lemma countContained_loop (nets : list net.IPNet) (ips : list net.IP) (c : Z) :
  foldl (fun count ipnet =>
           foldl (fun count ip =>
                    if net.Contains ipnet ip then wrap64 (count + 1)
                    else count) count ips) (wrap64 c) nets
  = wrap64 (c + Z.of_nat (pairsContained nets ips)).
Proof.
  revert c. induction nets as [|n nets IH]; intros c; simpl.
  - by rewrite Z.add_0_r.
  - rewrite countContained_inner, IH. f_equal. lia.
Qed.

Lemma countContained_eq (nets : list net.IPNet) (ips : list net.IP) :
  countContained nets ips = wrap64 (Z.of_nat (pairsContained nets ips)).
Proof. apply (countContained_loop nets ips 0). Qed.

Lemma hasTo4_isIPv4 (ip : net.IP) : hasTo4 ip = true <-> isIPv4 ip.
Proof.
  unfold hasTo4, isIPv4.
  destruct (net.To4 ip); split; try done; by intros [? ?].
Qed.

(** The /24 network of an address with an IPv4 form holds exactly the
    addresses with an IPv4 form and the same first 24 bits. *)
Lemma Contains_net24 (a b : net.IP) :
  isIPv4 a -> net.Contains (net24 a) b = true <-> same24 a b.
Proof.
  intros [a4 Ha]. destruct (To4_quad _ _ Ha) as (a0 & a1 & a2 & a3 & ->).
  unfold net24. rewrite CIDRMask_24, (Contains_v4 _ _ _ _ _ _ _ _ _ _ Ha).
  unfold same24, ipv4Value. rewrite Ha.
  destruct (net.To4 b) as [b4|] eqn:Hb;
    [|split; [done|by intros (x & y & _ & ? & _)]].
  destruct (To4_quad _ _ Hb) as (b0 & b1 & b2 & b3 & ->).
  rewrite !band_ff, !band_00, (bool_decide_eq_true_2 (x00 = x00)) by done.
  rewrite andb_true_r, !andb_true_iff, !bool_decide_eq_true.
  assert (Hq :
    (quad (Byte.to_N a0) (Byte.to_N a1) (Byte.to_N a2) (Byte.to_N a3) / 2 ^ 8
     = quad (Byte.to_N b0) (Byte.to_N b1) (Byte.to_N b2) (Byte.to_N b3) / 2 ^ 8
     <-> Byte.to_N a0 = Byte.to_N b0 /\ Byte.to_N a1 = Byte.to_N b1
         /\ Byte.to_N a2 = Byte.to_N b2)%N).
  { pose proof (to_N_lt a0). pose proof (to_N_lt a1).
    pose proof (to_N_lt a2). pose proof (to_N_lt a3).
    pose proof (to_N_lt b0). pose proof (to_N_lt b1).
    pose proof (to_N_lt b2). pose proof (to_N_lt b3).
    unfold quad. change (2 ^ 24)%N with 16777216%N.
    change (2 ^ 16)%N with 65536%N. change (2 ^ 8)%N with 256%N.
    zify. Z.to_euclidean_division_equations. lia. }
  split.
  - intros [[-> ->] ->]. eexists _, _. split; [done|]. split; [done|].
    by apply Hq.
  - intros (x & y & [= <-] & [= <-] & Hxy). apply Hq in Hxy
      as (?%to_N_inj & ?%to_N_inj & ?%to_N_inj). by subst.
Qed.

Lemma Contains_net24_hasTo4 (a b : net.IP) :
  isIPv4 a -> net.Contains (net24 a) b = true -> hasTo4 b = true.
Proof.
  intros Ha Hc. apply (Contains_net24 _ _ Ha) in Hc
    as (x & y & _ & Hy & _).
  unfold ipv4Value in Hy. unfold hasTo4. by destruct (net.To4 b).
Qed.

(** With every network holding at most [k] of the addresses, all the
    pairs are counted exactly when every network holds [k] of them. *)
Lemma pairsContained_full (nets : list net.IPNet) (ips : list net.IP)
      (k : nat) :
  (forall n, n ∈ nets -> (countIf (net.Contains n) ips <= k)%nat) ->
  (pairsContained nets ips <= length nets * k)%nat
  /\ (pairsContained nets ips = (length nets * k)%nat
      <-> forall n, n ∈ nets -> countIf (net.Contains n) ips = k).
Proof.
  induction nets as [|n nets IH]; intros Hle; simpl.
  - split; [lia|]. split; [|done]. intros _ n Hn. by apply elem_of_nil in Hn.
  - destruct IH as [IH1 IH2].
    { intros m Hm. apply Hle. by apply elem_of_cons; right. }
    pose proof (Hle n (list_elem_of_here _ _)) as Hn. split; [lia|]. split.
    + intros Heq m [->|Hm]%elem_of_cons; [lia|]. apply IH2; [lia|done].
    + intros Hall. rewrite (Hall n (list_elem_of_here _ _)). f_equal.
      apply IH2. intros m Hm. apply Hall. by apply elem_of_cons; right.
Qed.

Lemma elem_of_filter_hasTo4 (ips : list net.IP) (a : net.IP) :
  a ∈ List.filter hasTo4 ips <-> a ∈ ips /\ isIPv4 a.
Proof.
  rewrite !list_elem_of_In, filter_In, hasTo4_isIPv4. done.
Qed.

(** [isSameSubnet] without the wrap-around: all the pairs of IPv4
    addresses are counted. *)
Lemma pairsContained_same24 (ips : list net.IP) :
  let v4s := List.filter hasTo4 ips in
  (pairsContained (map net24 v4s) ips <= length v4s * length v4s)%nat
  /\ (pairsContained (map net24 v4s) ips = (length v4s * length v4s)%nat
      <-> forall a b, a ∈ ips -> b ∈ ips -> isIPv4 a -> isIPv4 b ->
                      same24 a b).
Proof.
  intros v4s.
  assert (Hcount : forall n, n ∈ map net24 v4s ->
            countIf (net.Contains n) ips = countIf (net.Contains n) v4s).
  { intros n (a & -> & [_ Ha]%elem_of_filter_hasTo4)%list_elem_of_fmap.
    apply countIf_filter. intros b. by apply Contains_net24_hasTo4. }
  destruct (pairsContained_full (map net24 v4s) ips (length v4s)) as [H1 H2].
  { intros n Hn. rewrite (Hcount n Hn). apply countIf_le. }
  rewrite length_map in H1, H2. split; [done|]. rewrite H2. split.
  - intros Hall a b Ha Hb Ha4 Hb4. apply Contains_net24; [done|].
    assert (Hn : net24 a ∈ map net24 v4s).
    { apply list_elem_of_fmap. exists a. split; [done|].
      by apply elem_of_filter_hasTo4. }
    specialize (Hall _ Hn). rewrite (Hcount _ Hn) in Hall.
    apply countIf_all with (x := b) in Hall; [done|].
    by apply elem_of_filter_hasTo4.
  - intros Hsame n Hn. rewrite (Hcount n Hn).
    apply list_elem_of_fmap in Hn
      as (a & -> & [Ha Ha4]%elem_of_filter_hasTo4).
    apply countIf_all. intros b [Hb Hb4]%elem_of_filter_hasTo4.
    apply Contains_net24; [done|]. by apply Hsame.
Qed.

Lemma isSameSubnet_pairs (ips : list net.IP) :
  Z.of_nat (length ips) < 2 ^ 32 ->
  let v4s := List.filter hasTo4 ips in
  isSameSubnet ips = true
  <-> pairsContained (map net24 v4s) ips = (length v4s * length v4s)%nat.
Proof.
  intros Hlen v4s. unfold isSameSubnet.
  rewrite collectNets_eq, countContained_eq. fold v4s.
  rewrite length_map.
  assert (Hk : Z.of_nat (length v4s) <= Z.of_nat (length ips)).
  { apply inj_le. unfold v4s. clear. induction ips as [|ip ips IH]; simpl;
      [lia|destruct (hasTo4 ip); simpl; lia]. }
  destruct (pairsContained_same24 ips) as [Hle _]. fold v4s in Hle.
  change (2 ^ 32) with 4294967296 in Hlen.
  rewrite (wrap64_small (Z.of_nat (length v4s)))
    by (change (2 ^ 63) with 9223372036854775808; lia).
  generalize dependent (pairsContained (map net24 v4s) ips).
  generalize dependent (length v4s). clear v4s. intros k Hk p Hle.
  assert (Hp : Z.of_nat p <= Z.of_nat k * Z.of_nat k) by nia.
  assert (Hkk : Z.of_nat k * Z.of_nat k < 2 ^ 64)
    by (change (2 ^ 64) with 18446744073709551616; nia).
  destruct (_ =? _) eqn:E.
  - apply Z.eqb_eq in E.
    apply (proj1 (wrap64_eq_iff _ _ (conj (Nat2Z.is_nonneg p) Hp) Hkk)) in E.
    split; [intros _; nia|done].
  - apply Z.eqb_neq in E. split; [done|]. intros ->. destruct E.
    f_equal. lia.
Qed.

(** C1. For a list of fewer than [2^32] addresses (the pair counters are
    64-bit integers), [isSameSubnet] is true exactly when every address of
    the list that has an IPv4 form lies in the /24 network of every address
    of the list that has one; the other addresses are ignored. It is true
    for the empty list and for every list of one address, false for
    10.0.0.1, 10.0.1.1 and true for 10.0.0.1, 10.0.0.2, 10.0.0.3. *)
Theorem isSameSubnet_spec :
  (forall ips : list net.IP,
      Z.of_nat (length ips) < 2 ^ 32 ->
      isSameSubnet ips = true
      <-> forall a b, a ∈ ips -> b ∈ ips -> isIPv4 a -> isIPv4 b ->
                      same24 a b)
  /\ isSameSubnet [] = true
  /\ (forall a : net.IP, isSameSubnet [a] = true)
  /\ isSameSubnet [net.IPv4 10 0 0 1; net.IPv4 10 0 1 1] = false
  /\ isSameSubnet [net.IPv4 10 0 0 1; net.IPv4 10 0 0 2; net.IPv4 10 0 0 3]
     = true.
Proof.
  assert (Hiff : forall ips : list net.IP,
             Z.of_nat (length ips) < 2 ^ 32 ->
             isSameSubnet ips = true
             <-> forall a b, a ∈ ips -> b ∈ ips -> isIPv4 a -> isIPv4 b ->
                             same24 a b).
  { intros ips Hlen. rewrite (isSameSubnet_pairs ips Hlen).
    apply pairsContained_same24. }
  split; [exact Hiff|]. split; [reflexivity|].
  split; [|split; vm_compute; reflexivity].
  intros a. apply Hiff; [done|].
  intros x y ->%list_elem_of_singleton ->%list_elem_of_singleton Ha _.
  apply Contains_net24; [done|]. apply Contains_net24; [done|].
  destruct Ha as [a4 Ha]. unfold same24, ipv4Value. rewrite Ha.
  destruct (To4_quad _ _ Ha) as (a0 & a1 & a2 & a3 & ->).
  by eexists _, _.
Qed.

Lemma isSameSubnet_spec_witness :
  isSameSubnet [net.IPv4 192 0 2 1; net.IPv4 192 0 2 200] = true
  <-> forall a b,
      a ∈ [net.IPv4 192 0 2 1; net.IPv4 192 0 2 200] ->
      b ∈ [net.IPv4 192 0 2 1; net.IPv4 192 0 2 200] ->
      isIPv4 a -> isIPv4 b -> same24 a b.
Proof.
  apply (proj1 isSameSubnet_spec
           [net.IPv4 192 0 2 1; net.IPv4 192 0 2 200]).
  vm_compute. reflexivity.
Defined.

(** ** The parent of a domain name: [getParentDomain] *)

Lemma NextLabel_back_count (s : string) (i : nat) :
  dns.NextLabel_back s i
  = Z.of_nat i - 1 - Z.of_nat (backslashesBefore s i).
Proof.
  induction i as [|j IH]; simpl; [done|].
  case_bool_decide; [rewrite IH|]; lia.
Qed.

(** The parity test of [NextLabel] skips the dots behind an odd number of
    backslashes. *)
Lemma NextLabel_parity (i n : nat) :
  (Z.rem (Z.of_nat i - 1 - Z.of_nat n - Z.of_nat i) 2 =? 0) = negb (Nat.even n).
Proof.
  replace (Z.of_nat i - 1 - Z.of_nat n - Z.of_nat i)
    with (- (Z.of_nat n + 1)) by lia.
  rewrite Z.rem_opp_l by lia. rewrite Z.rem_mod_nonneg by lia.
  destruct (Nat.even n) eqn:E; simpl.
  - apply Nat.even_spec in E as [m ->]. apply Z.eqb_neq.
    Z.to_euclidean_division_equations. lia.
  - apply Z.eqb_eq. assert (Ho : Nat.odd n = true)
      by (rewrite <- Nat.negb_even, E; done).
    apply Nat.odd_spec in Ho as [m ->].
    Z.to_euclidean_division_equations. lia.
Qed.

(** The loop of [NextLabel] from index [i] stops behind the first label
    boundary at or after [i], or reaches the end when there is none. *)
Lemma NextLabel_loop_spec (s : string) (fuel i : nat) :
  (i + fuel + 1 = String.length s)%nat ->
  (exists j, (i <= j)%nat /\ boundaryAt s j
             /\ (forall k, (i <= k < j)%nat -> ~ boundaryAt s k)
             /\ dns.NextLabel_loop s fuel i = (Z.of_nat j + 1, false))
  \/ ((forall k, (i <= k)%nat -> ~ boundaryAt s k)
      /\ snd (dns.NextLabel_loop s fuel i) = true).
Proof.
  revert i. induction fuel as [|fuel IH]; intros i Hlen; simpl.
  - right. split; [|done]. intros k Hk (_ & _ & Hlt). lia.
  - assert (Hnext : (S i + fuel + 1 = String.length s)%nat) by lia.
    assert (Hskip : ~ boundaryAt s i ->
      (exists j, (i <= j)%nat /\ boundaryAt s j
         /\ (forall k, (i <= k < j)%nat -> ~ boundaryAt s k)
         /\ dns.NextLabel_loop s fuel (S i) = (Z.of_nat j + 1, false))
      \/ ((forall k, (i <= k)%nat -> ~ boundaryAt s k)
          /\ snd (dns.NextLabel_loop s fuel (S i)) = true)).
    { intros Hni.
      destruct (IH (S i) Hnext)
        as [(j & Hj & Hb & Hfirst & Heq)|[Hnone Hend]].
      - left. exists j. split; [lia|]. split; [done|]. split; [|done].
        intros k Hk. destruct (decide (k = i)) as [->|]; [done|].
        apply Hfirst. lia.
      - right. split; [|done]. intros k Hk.
        destruct (decide (k = i)) as [->|]; [done|]. apply Hnone. lia. }
    case_bool_decide as Hdot; simpl.
    + rewrite NextLabel_back_count, NextLabel_parity.
      destruct (Nat.even (backslashesBefore s i)) eqn:Heven; simpl.
      * left. exists i. split; [lia|]. split; [|split; [intros k; lia|done]].
        split; [done|]. split; [done|lia].
      * apply Hskip. intros (_ & He & _). congruence.
    + apply Hskip. intros (Hd & _). done.
Qed.

Lemma sliceFrom_split (s : string) (i : nat) (c : ascii) :
  String.get i s = Some c ->
  exists label, String.length label = i
                /\ s = label +:+ String c (sliceFrom (S i) s).
Proof.
  revert s. induction i as [|i IH]; intros [|c' s] Hget; simpl in Hget;
    try done.
  - injection Hget as ->. exists "". split; [done|]. by destruct s.
  - destruct (IH s Hget) as (label & Hl & Hs).
    exists (String c' label). split; [simpl; lia|].
    change (String c' s = String c' (label +:+ String c (sliceFrom (S i) s))).
    by f_equal.
Qed.

(** C8. For every domain string, either the string has a first label
    boundary, and [getParentDomain] returns what follows it: the domain is
    its leftmost label, which holds no label boundary, a dot, and the
    result; or the string has no label boundary and the result is the root
    label. In particular the parent of [www.example.com.] is [example.com.]
    and the parent of the root is the root. *)
Theorem getParentDomain_spec :
  (forall domain : string,
      (exists i label,
          firstBoundary domain i
          /\ String.length label = i
          /\ domain = label +:+ "." +:+ getParentDomain domain)
      \/ ((forall i, ~ boundaryAt domain i) /\ getParentDomain domain = "."))
  /\ getParentDomain "www.example.com." = "example.com."
  /\ getParentDomain "." = ".".
Proof.
  split; [|split; reflexivity].
  intros domain. unfold getParentDomain, dns.NextLabel.
  case_bool_decide as Hempty.
  { right. split; [|done]. subst. intros i (_ & _ & Hlt). simpl in Hlt. lia. }
  assert (Hlen : (0 + (String.length domain - 1 - 0) + 1
                  = String.length domain)%nat).
  { destruct domain; [done|simpl; lia]. }
  destruct (NextLabel_loop_spec _ _ _ Hlen)
    as [(j & _ & Hb & Hfirst & ->)|[Hnone Hend]].
  - left. cbn [negb]. replace (Z.to_nat (Z.of_nat j + 1)) with (S j) by lia.
    destruct (sliceFrom_split domain j "."%char) as (label & Hl & Hs);
      [by destruct Hb|].
    exists j, label. split; [|done].
    split; [done|]. intros k Hk. apply Hfirst. lia.
  - right. destruct (dns.NextLabel_loop _ _ _) as [i e]. simpl in Hend.
    subst e. split; [|done]. intros i'. apply Hnone. lia.
Qed.

(** ** RRset resolution: [query] and [queryRRset] *)

Section Resolution.
Context `{Env}.

(** [query] is one exchange of the message of [queryMsg] with port 53 of
    the server, classified by the response code. *)
Lemma query_exchange (q : string) (qtype : N) (server : string)
      (sec : bool) (w : World) :
  query q qtype server sec w
  = let '(m, w1) := queryMsg q qtype sec w in
    let '(ex, w2) := Exchange m (JoinHostPort server "53") w1 in
    match ex with
    | dns.ExchangeErr err => (Err err, w2)
    | dns.ExchangeOk reply rtt =>
        if dns.Rcode reply =? 0
        then (Ok (mkResponse reply server rtt), w2)
        else (Err ("failure: " +:+ dns_RcodeToString (dns.Rcode reply)), w2)
    end.
Proof.
  unfold query, queryMsg, prepMsg. destruct (dns_Id w) as [id w1].
  destruct sec; cbn; destruct (Exchange _ _ w1) as [[reply rtt|err] w2];
    try done; by destruct (dns.Rcode reply =? 0).
Qed.

Lemma length_eqb_0 {A} (l : list A) : (length l =? 0)%nat = true <-> l = [].
Proof. destruct l; simpl; split; done. Qed.

(** The outcomes of [queryRRset], by the outcome of its exchange. *)
Lemma queryRRset_cases (q : string) (qtype : N) (server : string)
      (sec : bool) (w : World) :
  let '(m, w1) := queryMsg q qtype sec w in
  let '(ex, w2) := Exchange m (JoinHostPort server "53") w1 in
  match ex with
  | dns.ExchangeErr err => queryRRset q qtype server sec w = (Err err, w2)
  | dns.ExchangeOk reply rtt =>
      if negb (dns.Rcode reply =? 0)
      then queryRRset q qtype server sec w
           = (Err ("failure: " +:+ dns_RcodeToString (dns.Rcode reply)), w2)
      else match extractRR (dns.Answer reply) [qtype] with
           | [] => queryRRset q qtype server sec w
                   = (Err ("no rr for " +:+ fmt_sharpV_uint16 qtype), w2)
           | rr :: rrset =>
               queryRRset q qtype server sec w = (Ok (rr :: rrset, rtt), w2)
           end
  end.
Proof.
  unfold queryRRset. rewrite query_exchange.
  destruct (queryMsg q qtype sec w) as [m w1].
  destruct (Exchange m _ w1) as [[reply rtt|err] w2]; [|done].
  destruct (dns.Rcode reply =? 0); [|done]. cbn.
  destruct (extractRR (dns.Answer reply) [qtype]) as [|rr rrset]; done.
Qed.

(** A successful lookup comes from a successful exchange, and its records
    are the answer records of the requested type. *)
Lemma queryRRset_Ok (q : string) (qtype : N) (server : string) (sec : bool)
      (w w' : World) (rrset : list dns.RR) (rtt : Z) :
  queryRRset q qtype server sec w = (Ok (rrset, rtt), w') ->
  exists m w1 reply,
    queryMsg q qtype sec w = (m, w1)
    /\ Exchange m (JoinHostPort server "53") w1
       = (dns.ExchangeOk reply rtt, w')
    /\ dns.Rcode reply = 0
    /\ rrset = extractRR (dns.Answer reply) [qtype]
    /\ rrset <> [].
Proof.
  pose proof (queryRRset_cases q qtype server sec w) as Hq.
  destruct (queryMsg q qtype sec w) as [m w1].
  destruct (Exchange m _ w1) as [[reply rtt'|err] w2] eqn:Hex.
  - destruct (dns.Rcode reply =? 0) eqn:Hrc; cbn [negb] in Hq;
      [|rewrite Hq; done].
    destruct (extractRR _ _) as [|rr rrs] eqn:Hrr; rewrite Hq; [done|].
    intros [= <- <- <-]. exists m, w1, reply. rewrite Hrr.
    by apply Z.eqb_eq in Hrc.
  - rewrite Hq. done.
Qed.

(** C3. [queryRRset] is one exchange followed by the filter on the
    requested type: a transport error is handed on; a reply with a
    response code other than success gives the error [failure: <code>];
    a successful reply without a record of the requested type gives the
    error [no rr for <type>]; otherwise the result is the filtered record
    list, which is not empty, with the round-trip time of the exchange. On
    success the record list is never empty and every record in it has the
    requested type. *)
Theorem queryRRset_spec (q : string) (qtype : N) (server : string)
        (sec : bool) (w : World) :
  (let '(m, w1) := queryMsg q qtype sec w in
   let '(ex, w2) := Exchange m (JoinHostPort server "53") w1 in
   match ex with
   | dns.ExchangeErr err => queryRRset q qtype server sec w = (Err err, w2)
   | dns.ExchangeOk reply rtt =>
       if negb (dns.Rcode reply =? 0)
       then queryRRset q qtype server sec w
            = (Err ("failure: " +:+ dns_RcodeToString (dns.Rcode reply)), w2)
       else match extractRR (dns.Answer reply) [qtype] with
            | [] => queryRRset q qtype server sec w
                    = (Err ("no rr for " +:+ fmt_sharpV_uint16 qtype), w2)
            | rr :: rrset =>
                queryRRset q qtype server sec w = (Ok (rr :: rrset, rtt), w2)
            end
   end)
  /\ match queryRRset q qtype server sec w with
     | (Ok (rrset, _), _) =>
         rrset <> []
         /\ Forall (fun rr => dns.Rrtype (dns.Header rr) = qtype) rrset
     | (Err _, _) => True
     end.
Proof.
  split; [apply queryRRset_cases|].
  destruct (queryRRset q qtype server sec w) as [[[rrset rtt]|e] w'] eqn:Hq;
    [|done].
  apply queryRRset_Ok in Hq as (m & w1 & reply & _ & _ & _ & -> & Hne).
  split; [done|]. rewrite extractRR_filter. apply Forall_forall.
  intros rr [Ht _]%list_elem_of_filter. by apply list_elem_of_singleton in Ht.
Qed.

End Resolution.

(** ** Nameserver discovery: [getIP] and [findNS] *)

Lemma extractIP_loop (rrset : list dns.RR) (acc : list net.IP) :
  foldl (fun ips rr =>
           match rr with
           | dns.A _ a => ips ++ [a]
           | dns.AAAA _ aaaa => ips ++ [aaaa]
           | _ => ips
           end) acc rrset
  = acc ++ omap addrOf rrset.
Proof.
  revert acc. induction rrset as [|rr rrset IH]; intros acc; simpl.
  - by rewrite app_nil_r.
  - rewrite IH. destruct rr; simpl; by rewrite <- ?app_assoc.
Qed.

Lemma extractIP_omap (rrset : list dns.RR) :
  extractIP rrset = omap addrOf rrset.
Proof. apply (extractIP_loop rrset []). Qed.

Lemma extractIP_A (recs : list (dns.RR_Header * net.IP)) :
  extractIP (map (fun p => dns.A p.1 p.2) recs) = recs.*2.
Proof.
  rewrite extractIP_omap. induction recs as [|[h a] recs IH]; [done|].
  cbn. by f_equal.
Qed.

Lemma extractIP_AAAA (recs : list (dns.RR_Header * net.IP)) :
  extractIP (map (fun p => dns.AAAA p.1 p.2) recs) = recs.*2.
Proof.
  rewrite extractIP_omap. induction recs as [|[h a] recs IH]; [done|].
  cbn. by f_equal.
Qed.

Lemma Forall_isA (rrs : list dns.RR) :
  Forall isA rrs -> exists recs, rrs = map (fun p => dns.A p.1 p.2) recs.
Proof.
  induction 1 as [|rr rrs (h & a & ->) _ (recs & ->)]; [by exists []|].
  by exists ((h, a) :: recs).
Qed.

Lemma Forall_isAAAA (rrs : list dns.RR) :
  Forall isAAAA rrs -> exists recs, rrs = map (fun p => dns.AAAA p.1 p.2) recs.
Proof.
  induction 1 as [|rr rrs (h & a & ->) _ (recs & ->)]; [by exists []|].
  by exists ((h, a) :: recs).
Qed.

Lemma nsinfos_loop (ns : string) (ips : list net.IP) (acc : list NSInfo) :
  foldl (fun nsinfos ip => nsinfos ++ [mkNSInfo (mkIPInfo ip "" 0 "") ns])
        acc ips
  = acc ++ nsinfosOf ns ips.
Proof.
  revert acc. induction ips as [|ip ips IH]; intros acc; simpl.
  - by rewrite app_nil_r.
  - by rewrite IH, <- app_assoc.
Qed.

(** A wire record is of the Go type of its type code. *)
Lemma wireRR_type (rr : dns.RR) :
  dns.wireRR rr = true ->
  (dns.Rrtype (dns.Header rr) = dns.TypeNS -> isNS rr)
  /\ (dns.Rrtype (dns.Header rr) = dns.TypeA -> isA rr)
  /\ (dns.Rrtype (dns.Header rr) = dns.TypeAAAA -> isAAAA rr).
Proof.
  destruct rr as [h a|h a|h ns|h d]; simpl; intros Hw;
    repeat (apply andb_prop in Hw as [Hw ?]);
    repeat match goal with
           | Hb : bool_decide _ = true |- _ => apply bool_decide_eq_true in Hb
           | Hb : negb (bool_decide _) = true |- _ =>
               apply negb_true_iff, bool_decide_eq_false in Hb
           end;
    unfold dns.TypeA, dns.TypeAAAA, dns.TypeNS in *;
    (split; [|split]); intros Ht; try congruence;
    by eexists _, _.
Qed.

Section Discovery.
Context `{Env}.

Lemma queryRRset_wire (q : string) (qtype : N) (server : string)
      (sec : bool) (w w' : World) (rrset : list dns.RR) (rtt : Z) :
  wireExchange ->
  queryRRset q qtype server sec w = (Ok (rrset, rtt), w') ->
  rrset <> []
  /\ Forall (fun rr => dns.wireRR rr = true
                       /\ dns.Rrtype (dns.Header rr) = qtype) rrset.
Proof.
  intros Hwire (m & w1 & reply & _ & Hex & _ & -> & Hne)%queryRRset_Ok.
  split; [done|]. apply Hwire in Hex. rewrite extractRR_filter.
  apply Forall_forall. intros rr [Ht Hin]%list_elem_of_filter.
  split.
  - rewrite forallb_forall in Hex. apply Hex. by apply list_elem_of_In.
  - by apply list_elem_of_singleton in Ht.
Qed.

Lemma getIP_lookup (host : string) (qtype : N) (server : string)
      (w : World) :
  getIP host qtype server w
  = (extractIP (lookupRecords (queryRRset host qtype server false w).1),
     (queryRRset host qtype server false w).2).
Proof.
  unfold getIP.
  destruct (queryRRset host qtype server false w) as [[[rrset rtt]|e] w'];
    done.
Qed.

(** The body of the loop on an NS record: the two address lookups, one
    after the other, and the entry made of their results. *)
Lemma findNS_step_NS (h : dns.RR_Header) (ns : string) (w : World) :
  findNS_step (dns.NS h ns) w
  = let a := getIP ns dns.TypeA resolver w in
    let aaaa := getIP ns dns.TypeAAAA resolver a.2 in
    (Some (mkNSData ns (a.1 ++ aaaa.1) (nsinfosOf ns (a.1 ++ aaaa.1))),
     aaaa.2).
Proof.
  unfold findNS_step.
  destruct (getIP ns dns.TypeA resolver w) as [ipsA w1]. cbn.
  destruct (getIP ns dns.TypeAAAA resolver w1) as [ipsAAAA w2]. cbn.
  by rewrite (nsinfos_loop ns _ []).
Qed.

(** Over NS records the loop of [findNS] does not panic and appends one
    entry per record, in order: the entry of the record of index [k] is
    the one the loop body builds in the world [worldBefore rrset k w]. *)
Lemma findNS_loop_spec (rrset : list dns.RR) (acc : list NSData)
      (w : World) :
  Forall isNS rrset ->
  exists ds w',
    findNS_loop rrset acc w = (Some (acc ++ ds), w')
    /\ length ds = length rrset
    /\ forall k rr, rrset !! k = Some rr ->
         exists d, ds !! k = Some d
                   /\ (findNS_step rr (worldBefore rrset k w)).1 = Some d.
Proof.
  intros Hns. revert acc w.
  induction Hns as [|rr rrset (h & ns & ->) _ IH]; intros acc w.
  - exists [], w. rewrite app_nil_r. split; [done|]. split; [done|].
    intros k rr Hk. done.
  - cbn [findNS_loop]. rewrite findNS_step_NS. cbn zeta.
    set (a := getIP ns dns.TypeA resolver w).
    set (aaaa := getIP ns dns.TypeAAAA resolver a.2).
    set (d := mkNSData ns _ _).
    destruct (IH (acc ++ [d]) aaaa.2) as (ds & w' & Hloop & Hlen & Hk).
    exists (d :: ds), w'. split; [by rewrite Hloop, <- app_assoc|].
    split; [simpl; lia|]. intros [|k] rr Hrr; simpl in Hrr.
    + injection Hrr as <-. exists d. split; [done|].
      cbn [worldBefore]. by rewrite findNS_step_NS.
    + cbn [worldBefore]. rewrite findNS_step_NS. cbn. by apply Hk.
Qed.

End Discovery.

Section DiscoveryResult.
Context `{Env}.

(** A loop of [findNS] that runs to its end has met NS records only. *)
Lemma findNS_loop_isNS (rrset : list dns.RR) (acc nsdatas : list NSData)
      (w w' : World) :
  findNS_loop rrset acc w = (Some nsdatas, w') -> Forall isNS rrset.
Proof.
  revert acc w. induction rrset as [|rr rrset IH]; intros acc w; [done|].
  cbn [findNS_loop].
  destruct (findNS_step rr w) as [[d|] w1] eqn:Hstep; [|done].
  intros Hloop. constructor; [|by eapply IH].
  destruct rr; try done. by eexists _, _.
Qed.

(** The entries of a loop that runs to its end: one per record, in order,
    each built from the two address lookups for the name of its record. *)
Lemma findNS_loop_entries (rrset : list dns.RR) (nsdatas : list NSData)
      (w w' : World) :
  findNS_loop rrset [] w = (Some nsdatas, w') ->
  length nsdatas = length rrset
  /\ forall k rr, rrset !! k = Some rr ->
       exists h ns,
         rr = dns.NS h ns
         /\ let a := getIP ns dns.TypeA resolver (worldBefore rrset k w) in
            let aaaa := getIP ns dns.TypeAAAA resolver a.2 in
            nsdatas !! k
            = Some (mkNSData ns (a.1 ++ aaaa.1)
                             (nsinfosOf ns (a.1 ++ aaaa.1))).
Proof.
  intros Hloop. pose proof (findNS_loop_isNS _ _ _ _ _ Hloop) as Hns.
  destruct (findNS_loop_spec rrset [] w Hns) as (ds & w2 & Hloop' & Hlen & Hk).
  rewrite Hloop, app_nil_l in Hloop'. injection Hloop' as -> ->.
  split; [done|]. intros k rr Hrr. destruct (Hk k rr Hrr) as (d & Hd & Hstep).
  rewrite Forall_forall in Hns.
  destruct (Hns rr) as (h & ns & ->); [by eapply list_elem_of_lookup_2|].
  exists h, ns. split; [done|]. rewrite findNS_step_NS in Hstep.
  cbn in Hstep. injection Hstep as <-. done.
Qed.

(** A failed NS lookup is the failure of [findNS]. *)
Lemma findNS_lookup_Err (domain : string) (w w' : World) (e : error) :
  queryRRset domain dns.TypeNS resolver false w = (Err e, w') ->
  findNS domain w = (Some (Err e), w').
Proof. intros Hq. unfold findNS. by rewrite Hq. Qed.

(** After a successful NS lookup [findNS] panics with its loop or returns
    the entries of the loop, one per record, without an error. *)
Lemma findNS_lookup_Ok (domain : string) (w w1 : World)
      (rrset : list dns.RR) (rtt : Z) :
  queryRRset domain dns.TypeNS resolver false w = (Ok (rrset, rtt), w1) ->
  rrset <> []
  /\ match findNS_loop rrset [] w1 with
     | (Some nsdatas, w2) =>
         length nsdatas = length rrset
         /\ (length nsdatas =? 0)%nat = false
         /\ findNS domain w = (Some (Ok nsdatas), w2)
     | (None, w2) => findNS domain w = (None, w2)
     end.
Proof.
  intros Hq. pose proof (queryRRset_Ok _ _ _ _ _ _ _ _ Hq)
    as (_ & _ & _ & _ & _ & _ & _ & Hne).
  split; [done|]. unfold findNS. rewrite Hq.
  destruct (findNS_loop rrset [] w1) as [[nsdatas|] w2] eqn:Hloop; [|done].
  destruct (findNS_loop_entries _ _ _ _ Hloop) as [Hlen _].
  assert (Hz : (length nsdatas =? 0)%nat = false).
  { apply Nat.eqb_neq. rewrite Hlen. by destruct rrset. }
  by rewrite Hz.
Qed.

(** The NS records of wire messages pass the type assertion of the loop:
    the loop does not panic. *)
Lemma findNS_loop_wire (domain : string) (w w1 : World)
      (rrset : list dns.RR) (rtt : Z) :
  wireExchange ->
  queryRRset domain dns.TypeNS resolver false w = (Ok (rrset, rtt), w1) ->
  exists nsdatas w2, findNS_loop rrset [] w1 = (Some nsdatas, w2).
Proof.
  intros Hwire Hq.
  destruct (queryRRset_wire _ _ _ _ _ _ _ _ Hwire Hq) as [_ Hall].
  assert (Hns : Forall isNS rrset).
  { eapply Forall_impl; [exact Hall|]. intros rr [Hw Ht].
    by apply wireRR_type in Hw as [Hw _]; apply Hw. }
  destruct (findNS_loop_spec rrset [] w1 Hns) as (ds & w2 & Hloop & _).
  by exists ds, w2.
Qed.

(** C10. After a successful NS lookup the record set is not empty. The
    loop of [findNS] then either panics on a record that is not an NS
    record, which no wire message holds, or appends one entry per record:
    the assembled list is as long as the record set, the length test before
    the [no NS found] return is false, and [findNS] returns the list
    without an error. The [no NS found] return is never taken. *)
Theorem findNS_no_NS_found_unreachable
        (domain : string) (w w1 : World) (rrset : list dns.RR) (rtt : Z) :
  queryRRset domain dns.TypeNS resolver false w = (Ok (rrset, rtt), w1) ->
  rrset <> []
  /\ match findNS_loop rrset [] w1 with
     | (Some nsdatas, w2) =>
         length nsdatas = length rrset
         /\ (length nsdatas =? 0)%nat = false
         /\ findNS domain w = (Some (Ok nsdatas), w2)
     | (None, w2) => findNS domain w = (None, w2)
     end
  /\ (wireExchange ->
      exists nsdatas w2, findNS_loop rrset [] w1 = (Some nsdatas, w2)).
Proof.
  intros Hq. destruct (findNS_lookup_Ok _ _ _ _ _ Hq) as [Hne Hloop].
  split; [done|]. split; [done|]. intros Hwire.
  by eapply findNS_loop_wire.
Qed.

(** C4. [findNS] returns an error exactly when the NS lookup does, and
    then it is the error of that lookup. A failing address lookup is
    absorbed by [getIP] into an empty address list. On wire messages, after
    a successful NS lookup [findNS] succeeds with one entry per NS record,
    and a nameserver for which the A and the AAAA lookup give no address
    has its entry, with its name and an empty address list. *)
Theorem findNS_absorbs_address_failures (domain : string) (w : World) :
  (forall e w',
      findNS domain w = (Some (Err e), w')
      <-> queryRRset domain dns.TypeNS resolver false w = (Err e, w'))
  /\ (forall host qtype server w0,
         isErr (queryRRset host qtype server false w0).1 ->
         (getIP host qtype server w0).1 = [])
  /\ (wireExchange ->
      forall rrset rtt w1,
        queryRRset domain dns.TypeNS resolver false w
        = (Ok (rrset, rtt), w1) ->
        exists nsdatas w2,
          findNS domain w = (Some (Ok nsdatas), w2)
          /\ length nsdatas = length rrset
          /\ forall k h ns,
              rrset !! k = Some (dns.NS h ns) ->
              let a :=
                getIP ns dns.TypeA resolver (worldBefore rrset k w1) in
              let aaaa := getIP ns dns.TypeAAAA resolver a.2 in
              a.1 = [] -> aaaa.1 = [] ->
              nsdatas !! k = Some (mkNSData ns [] [])).
Proof.
  split; [|split].
  - intros e w'. split; [|apply findNS_lookup_Err].
    destruct (queryRRset domain dns.TypeNS resolver false w)
      as [[[rrset rtt]|e0] w1] eqn:Hq.
    + destruct (findNS_lookup_Ok _ _ _ _ _ Hq) as [_ Hloop].
      destruct (findNS_loop rrset [] w1) as [[nsdatas|] w2].
      * destruct Hloop as (_ & _ & ->). done.
      * rewrite Hloop. done.
    + rewrite (findNS_lookup_Err _ _ _ _ Hq). by intros [= <- <-].
  - intros host qtype server w0 He. rewrite getIP_lookup. cbn.
    by destruct (queryRRset host qtype server false w0).1.
  - intros Hwire rrset rtt w1 Hq.
    destruct (findNS_loop_wire _ _ _ _ _ Hwire Hq) as (nsdatas & w2 & Hloop).
    destruct (findNS_lookup_Ok _ _ _ _ _ Hq) as [_ Hfind].
    rewrite Hloop in Hfind. destruct Hfind as (Hlen & _ & Hfind).
    exists nsdatas, w2. split; [done|]. split; [done|].
    intros k h ns Hrr a aaaa Ha Haaaa.
    destruct (findNS_loop_entries _ _ _ _ Hloop) as [_ Hk].
    destruct (Hk k _ Hrr) as (h' & ns' & [= <- <-] & Hd).
    cbn zeta in Hd. fold a in Hd. fold aaaa in Hd.
    by rewrite Ha, Haaaa in Hd.
Qed.

(** C5. A successful [findNS] comes from a successful NS lookup and
    holds one entry per NS record, in the order of the records: the entry
    of index [k] has the name of the record of index [k]. Its address list
    is made of the addresses found in the records of the A lookup, all of
    type A, followed by the addresses found in the records of the AAAA
    lookup, all of type AAAA. On wire messages these are the addresses of
    A records, one per record and in their order, followed by the addresses
    of AAAA records. *)
Theorem findNS_order (domain : string) (w w' : World)
        (nsdatas : list NSData) :
  findNS domain w = (Some (Ok nsdatas), w') ->
  exists rrset rtt w1,
    queryRRset domain dns.TypeNS resolver false w = (Ok (rrset, rtt), w1)
    /\ length nsdatas = length rrset
    /\ forall k rr,
        rrset !! k = Some rr ->
        exists h ns d,
          rr = dns.NS h ns
          /\ nsdatas !! k = Some d
          /\ NSData_Name d = ns
          /\ let a := queryRRset ns dns.TypeA resolver false
                                 (worldBefore rrset k w1) in
             let aaaa := queryRRset ns dns.TypeAAAA resolver false a.2 in
             NSData_IP d
             = extractIP (lookupRecords a.1)
               ++ extractIP (lookupRecords aaaa.1)
             /\ Forall (fun rr => dns.Rrtype (dns.Header rr) = dns.TypeA)
                       (lookupRecords a.1)
             /\ Forall (fun rr => dns.Rrtype (dns.Header rr) = dns.TypeAAAA)
                       (lookupRecords aaaa.1)
             /\ (wireExchange ->
                 exists recsA recsAAAA,
                   lookupRecords a.1 = map (fun p => dns.A p.1 p.2) recsA
                   /\ lookupRecords aaaa.1
                      = map (fun p => dns.AAAA p.1 p.2) recsAAAA
                   /\ NSData_IP d = recsA.*2 ++ recsAAAA.*2).
Proof.
  intros Hfind.
  destruct (queryRRset domain dns.TypeNS resolver false w)
    as [[[rrset rtt]|e0] w1] eqn:Hq;
    [|by rewrite (findNS_lookup_Err _ _ _ _ Hq) in Hfind].
  destruct (findNS_lookup_Ok _ _ _ _ _ Hq) as [_ Hloop].
  destruct (findNS_loop rrset [] w1) as [[ds|] w2] eqn:Hl;
    [|by rewrite Hloop in Hfind].
  destruct Hloop as (Hlen & _ & Hfind'). rewrite Hfind' in Hfind.
  injection Hfind as -> ->.
  exists rrset, rtt, w1. split; [done|]. split; [done|].
  destruct (findNS_loop_entries _ _ _ _ Hl) as [_ Hk].
  intros k rr Hrr. destruct (Hk k rr Hrr) as (h & ns & -> & Hd).
  cbn zeta in Hd. rewrite !getIP_lookup in Hd. cbn [fst snd] in Hd.
  set (a := queryRRset ns dns.TypeA resolver false _) in *.
  set (aaaa := queryRRset ns dns.TypeAAAA resolver false a.2) in *.
  assert (Htypes : forall q qtype w0,
    Forall (fun rr => dns.Rrtype (dns.Header rr) = qtype)
           (lookupRecords (queryRRset q qtype resolver false w0).1)).
  { intros q qtype w0.
    destruct (queryRRset q qtype resolver false w0)
      as [[[rrs t]|e] wa] eqn:Ha; [|by constructor].
    apply queryRRset_Ok in Ha as (_ & _ & reply & _ & _ & _ & -> & _).
    rewrite extractRR_filter. apply Forall_forall.
    intros rr [Ht _]%list_elem_of_filter.
    by apply list_elem_of_singleton in Ht. }
  assert (Hwires : wireExchange -> forall q qtype w0,
    Forall (fun rr => dns.wireRR rr = true)
           (lookupRecords (queryRRset q qtype resolver false w0).1)).
  { intros Hwire q qtype w0.
    destruct (queryRRset q qtype resolver false w0)
      as [[[rrs t]|e] wa] eqn:Ha; [|by constructor].
    destruct (queryRRset_wire _ _ _ _ _ _ _ _ Hwire Ha) as [_ Hall].
    eapply Forall_impl; [exact Hall|]. by intros rr [Hw _]. }
  eexists h, ns, _. split; [done|]. split; [exact Hd|]. split; [done|].
  cbn zeta. split; [done|].
  split; [apply Htypes|]. split; [apply Htypes|]. intros Hwire.
  assert (HA : Forall isA (lookupRecords a.1)).
  { pose proof (Htypes ns dns.TypeA (worldBefore rrset k w1)) as Ht.
    pose proof (Hwires Hwire ns dns.TypeA (worldBefore rrset k w1)) as Hw.
    fold a in Ht, Hw. rewrite Forall_forall in Ht, Hw. apply Forall_forall.
    intros rr Hin. by apply (wireRR_type rr (Hw rr Hin)), Ht. }
  assert (HAAAA : Forall isAAAA (lookupRecords aaaa.1)).
  { pose proof (Htypes ns dns.TypeAAAA a.2) as Ht.
    pose proof (Hwires Hwire ns dns.TypeAAAA a.2) as Hw.
    fold aaaa in Ht, Hw. rewrite Forall_forall in Ht, Hw.
    apply Forall_forall.
    intros rr Hin. by apply (wireRR_type rr (Hw rr Hin)), Ht. }
  apply Forall_isA in HA as [recsA HA].
  apply Forall_isAAAA in HAAAA as [recsAAAA HAAAA].
  exists recsA, recsAAAA. split; [done|]. split; [done|].
  cbn. by rewrite HA, HAAAA, extractIP_A, extractIP_AAAA.
Qed.

End DiscoveryResult.

(** ** Discovery on the test network *)

Lemma TestNet_wire : @wireExchange TestNet.env.
Proof.
  intros m addr w reply rtt w'. cbn.
  destruct (dns.Questions m) as [|q [|? ?]]; try done.
  unfold TestNet.answer.
  repeat (destruct (_ && _) || case_bool_decide);
    intros [= <- <- <-]; reflexivity.
Qed.

(** The discovery example of the specification: two entries, the second
    with an empty address list, and no failure. *)
Example findNS_test_zone :
  @findNS TestNet.env "example.com" 0%nat = (Some (Ok testNSData), 5%nat).
Proof. vm_compute. reflexivity. Qed.

Lemma findNS_no_NS_found_unreachable_witness :
  testNSRecords <> []
  /\ match @findNS_loop TestNet.env testNSRecords [] 1%nat with
     | (Some nsdatas, w2) =>
         length nsdatas = length testNSRecords
         /\ (length nsdatas =? 0)%nat = false
         /\ @findNS TestNet.env "example.com" 0%nat = (Some (Ok nsdatas), w2)
     | (None, w2) => @findNS TestNet.env "example.com" 0%nat = (None, w2)
     end
  /\ (@wireExchange TestNet.env ->
      exists nsdatas w2,
        @findNS_loop TestNet.env testNSRecords [] 1%nat = (Some nsdatas, w2)).
Proof.
  apply (@findNS_no_NS_found_unreachable TestNet.env
           "example.com" 0%nat 1%nat testNSRecords 12000000).
  vm_compute. reflexivity.
Defined.

Lemma findNS_absorbs_address_failures_witness :
  exists nsdatas w2,
    @findNS TestNet.env "example.com" 0%nat = (Some (Ok nsdatas), w2)
    /\ length nsdatas = 2%nat
    /\ nsdatas !! 1%nat = Some (mkNSData "ns2.example.com." [] []).
Proof.
  destruct (proj2 (proj2 (@findNS_absorbs_address_failures TestNet.env
                            "example.com" 0%nat))
              TestNet_wire testNSRecords 12000000 1%nat)
    as (nsdatas & w2 & Hfind & Hlen & Hk); [vm_compute; reflexivity|].
  exists nsdatas, w2. split; [done|]. split; [done|].
  apply (Hk 1%nat (TestNet.hdr "example.com." dns.TypeNS) "ns2.example.com.");
    vm_compute; reflexivity.
Defined.

Lemma findNS_order_witness :
  exists rrset rtt w1,
    @queryRRset TestNet.env "example.com" dns.TypeNS (@resolver TestNet.env)
                false 0%nat
    = (Ok (rrset, rtt), w1)
    /\ length testNSData = length rrset
    /\ forall k rr,
        rrset !! k = Some rr ->
        exists h ns d,
          rr = dns.NS h ns
          /\ testNSData !! k = Some d
          /\ NSData_Name d = ns
          /\ let a := @queryRRset TestNet.env ns dns.TypeA
                                  (@resolver TestNet.env) false
                                  (@worldBefore TestNet.env rrset k w1) in
             let aaaa := @queryRRset TestNet.env ns dns.TypeAAAA
                                     (@resolver TestNet.env) false a.2 in
             NSData_IP d
             = extractIP (lookupRecords a.1)
               ++ extractIP (lookupRecords aaaa.1)
             /\ Forall (fun rr => dns.Rrtype (dns.Header rr) = dns.TypeA)
                       (lookupRecords a.1)
             /\ Forall (fun rr => dns.Rrtype (dns.Header rr) = dns.TypeAAAA)
                       (lookupRecords aaaa.1)
             /\ (@wireExchange TestNet.env ->
                 exists recsA recsAAAA,
                   lookupRecords a.1 = map (fun p => dns.A p.1 p.2) recsA
                   /\ lookupRecords aaaa.1
                      = map (fun p => dns.AAAA p.1 p.2) recsAAAA
                   /\ NSData_IP d = recsA.*2 ++ recsAAAA.*2).
Proof.
  apply (@findNS_order TestNet.env "example.com" 0%nat 5%nat testNSData).
  vm_compute. reflexivity.
Defined.

(** ** The classifier on the errors of the resolver *)

(** The error of [queryRRset] for an empty record set is one of the two
    the classifier keeps out of the report. *)
Lemma scanerror_no_rr_silent (r : Report) (check ns ip domain : string)
      (results : list dns.RR) (qtype : N) :
  scanerror r check ns ip domain results
            (Some ("no rr for " +:+ fmt_sharpV_uint16 qtype))
  = (true, r).
Proof.
  assert (Hc : strings_Contains ("no rr for " +:+ fmt_sharpV_uint16 qtype)
                                "no rr for" = true)
    by exact (strings_Contains_here "no rr for"
                                    (" " +:+ fmt_sharpV_uint16 qtype)).
  unfold scanerror. rewrite Hc.
  by destruct (strings_Contains _ "NXDOMAIN"), results.
Qed.

(** ** Examples *)

Example getParentDomain_tld : getParentDomain "com." = ".".
Proof. reflexivity. Qed.

Example getParentDomain_relative : getParentDomain "www.example" = "example".
Proof. reflexivity. Qed.

Example getParentDomain_escaped_dot : getParentDomain "a\.b.c." = "c.".
Proof. reflexivity. Qed.

Example getParentDomain_escaped_backslash :
  getParentDomain "a\\.b.c." = "b.c.".
Proof. reflexivity. Qed.

Example getParentDomain_empty : getParentDomain "" = ".".
Proof. reflexivity. Qed.

Example fmt_sharpV_AAAA : fmt_sharpV_uint16 dns.TypeAAAA = "0x1c".
Proof. reflexivity. Qed.

Example isSameSubnet_ignores_IPv6 :
  isSameSubnet [net.IPv4 10 0 0 1;
                [x20; x01; x0d; xb8; x00; x00; x00; x00;
                 x00; x00; x00; x00; x00; x00; x00; x01];
                [x0a; x00; x00; x63]] = true.
Proof. vm_compute. reflexivity. Qed.

Example isRFC1918_bounds :
  isRFC1918 (net.IPv4 172 15 255 255) = false
  /\ isRFC1918 (net.IPv4 172 31 255 255) = true
  /\ isRFC1918 (net.IPv4 172 32 0 0) = false
  /\ isRFC1918 [xc0; xa8; x00; x01] = true
  /\ isRFC1918 [] = false.
Proof. repeat split; reflexivity. Qed.

Example scanerror_transport_error :
  scanerror (mkReport []) "SOA" "ns1.example.net" "192.0.2.53" "example.org"
            [] (Some "read udp 192.0.2.53:53: i/o timeout")
  = (true,
     mkReport
       [mkReportResult
          ("ERR : SOA failed on ns1.example.net (192.0.2.53): "
           +:+ "read udp 192.0.2.53:53: i/o timeout")]).
Proof. reflexivity. Qed.

Example scanerror_nxdomain :
  scanerror (mkReport []) "SOA" "ns1.example.net" "192.0.2.53" "example.org"
            [] (Some "failure: NXDOMAIN")
  = (true, mkReport []).
Proof. reflexivity. Qed.

Example queryRRset_refused :
  @queryRRset TestNet.env "example.org" dns.TypeNS "192.0.2.53" false 0%nat
  = (Err "failure: REFUSED", 1%nat).
Proof. vm_compute. reflexivity. Qed.

Example queryRRset_no_records :
  @queryRRset TestNet.env "ns1.example.com." dns.TypeAAAA "192.0.2.53" false
              0%nat
  = (Err "no rr for 0x1c", 1%nat).
Proof. vm_compute. reflexivity. Qed.

(** * Further properties of the helpers *)

(** ** Address extraction: [extractIP] *)

Lemma addrOf_Some (rr : dns.RR) (ip : net.IP) :
  addrOf rr = Some ip <-> exists h, rr = dns.A h ip \/ rr = dns.AAAA h ip.
Proof.
  split.
  - destruct rr as [h a|h a|h ns|h d]; simpl; intros [= <-];
      exists h; (by left) || (by right).
  - by intros (h & [-> | ->]).
Qed.

Lemma length_omap_le {A B} (f : A -> option B) (l : list A) :
  (length (omap f l) <= length l)%nat.
Proof.
  induction l as [|x l IH]; [done|]. cbn. destruct (f x); simpl; lia.
Qed.

(** X1. [extractIP] returns the addresses of the A and AAAA records of
    the record set and nothing else: an address is in the result exactly
    when an A or an AAAA record of the input carries it. The result is no
    longer than the input, it is empty exactly when the input has no address
    record, and the addresses of a concatenation are the addresses of its
    parts, in order. *)
Theorem extractIP_addresses (rrset l1 l2 : list dns.RR) :
  (forall ip, ip ∈ extractIP rrset
              <-> exists h, dns.A h ip ∈ rrset \/ dns.AAAA h ip ∈ rrset)
  /\ (length (extractIP rrset) <= length rrset)%nat
  /\ (extractIP rrset = []
      <-> forall rr, rr ∈ rrset -> ~ isA rr /\ ~ isAAAA rr)
  /\ extractIP (l1 ++ l2) = extractIP l1 ++ extractIP l2.
Proof.
  rewrite !extractIP_omap. split; [|split; [|split]].
  - intros ip. rewrite list_elem_of_omap. split.
    + intros (rr & Hin & (h & [-> | ->])%addrOf_Some); exists h; auto.
    + intros (h & [Hin|Hin]); eexists; (split; [exact Hin|done]).
  - apply length_omap_le.
  - split.
    + intros Hnil rr Hin.
      assert (Hnone : addrOf rr = None).
      { destruct (addrOf rr) as [ip|] eqn:E; [|done].
        assert (Hip : ip ∈ omap addrOf rrset)
          by (apply list_elem_of_omap; eauto).
        rewrite Hnil in Hip. by apply elem_of_nil in Hip. }
      split; intros (h & a & ->); done.
    + intros Hall. induction rrset as [|rr rrset IH]; [done|]. cbn.
      destruct (Hall rr (list_elem_of_here _ _)) as [HnA HnAAAA].
      destruct rr as [h a|h a|h ns|h d]; simpl.
      * destruct HnA. by eexists _, _.
      * destruct HnAAAA. by eexists _, _.
      * apply IH. intros rr' Hin. apply Hall. by apply elem_of_cons; right.
      * apply IH. intros rr' Hin. apply Hall. by apply elem_of_cons; right.
  - apply omap_app.
Qed.

(** ** Composition of the filters: [extractRR] and [extractRRMsg] *)

(** X2. Filtering by type composes: two filters commute, a filter applied
    twice is the filter applied once, the filter of a concatenation is the
    concatenation of the filters, and only the set of the requested types
    matters, neither their order nor their repetition. With no requested
    type the result is empty. *)
Theorem extractRR_compose (rrset l1 l2 : list dns.RR) (q1 q2 : list N) :
  extractRR (extractRR rrset q1) q2 = extractRR (extractRR rrset q2) q1
  /\ extractRR (extractRR rrset q1) q1 = extractRR rrset q1
  /\ extractRR (l1 ++ l2) q1 = extractRR l1 q1 ++ extractRR l2 q1
  /\ extractRR rrset (q1 ++ q2) = extractRR rrset (q2 ++ q1)
  /\ extractRR rrset (q1 ++ q1) = extractRR rrset q1
  /\ extractRR rrset [] = [].
Proof.
  rewrite !extractRR_filter. repeat split.
  - rewrite !list_filter_filter. apply list_filter_iff. tauto.
  - apply list_filter_filter_l. tauto.
  - apply filter_app.
  - apply list_filter_iff. intros rr. rewrite !elem_of_app. tauto.
  - apply list_filter_iff. intros rr. rewrite !elem_of_app. tauto.
  - induction rrset as [|rr rrset IH]; [done|].
    rewrite filter_cons_False; [done|]. by intros ?%elem_of_nil.
Qed.

(** On wire records the address records are the records of type A or
    AAAA. *)
Lemma wireRR_addrOf (rr : dns.RR) :
  dns.wireRR rr = true ->
  is_Some (addrOf rr)
  <-> dns.Rrtype (dns.Header rr) = dns.TypeA
      \/ dns.Rrtype (dns.Header rr) = dns.TypeAAAA.
Proof.
  destruct rr as [h a|h a|h ns|h d]; simpl; intros Hw;
    repeat (apply andb_prop in Hw as [Hw ?]);
    repeat match goal with
           | Hb : bool_decide _ = true |- _ => apply bool_decide_eq_true in Hb
           | Hb : negb (bool_decide _) = true |- _ =>
               apply negb_true_iff, bool_decide_eq_false in Hb
           end;
    unfold dns.TypeA, dns.TypeAAAA, dns.TypeNS in *;
    (split; [intros [ip Hip]|intros [Ht|Ht]]);
    try done; try congruence; try (by eexists); try (by left);
    try (by right).
Qed.

(** X3. On wire records, filtering on the two address types before
    [extractIP] loses no address, and filtering on types that include
    neither A nor AAAA leaves no address. *)
Theorem extractIP_extractRR_wire (rrset : list dns.RR) (qtypes : list N) :
  forallb dns.wireRR rrset = true ->
  extractIP (extractRR rrset [dns.TypeA; dns.TypeAAAA]) = extractIP rrset
  /\ (dns.TypeA ∉ qtypes -> dns.TypeAAAA ∉ qtypes ->
      extractIP (extractRR rrset qtypes) = []).
Proof.
  intros Hw. rewrite !extractRR_filter, !extractIP_omap.
  rewrite forallb_forall in Hw. split.
  - induction rrset as [|rr rrset IH]; [done|].
    assert (Hrr : dns.wireRR rr = true) by (apply Hw; by left).
    assert (IH' : omap addrOf
                    (filter (fun rr => dns.Rrtype (dns.Header rr)
                                       ∈ [dns.TypeA; dns.TypeAAAA]) rrset)
                  = omap addrOf rrset)
      by (apply IH; intros x Hx; apply Hw; by right).
    pose proof (wireRR_addrOf rr Hrr) as Haddr.
    destruct (decide (dns.Rrtype (dns.Header rr)
                      ∈ [dns.TypeA; dns.TypeAAAA])) as [Hin|Hnin].
    + rewrite filter_cons_True by done. cbn. by rewrite IH'.
    + rewrite filter_cons_False by done. cbn.
      destruct (addrOf rr) as [ip|] eqn:E; [|done].
      destruct Hnin. destruct (proj1 Haddr) as [Ht|Ht]; [by eexists|..];
        rewrite Ht, !elem_of_cons; auto.
  - intros HA HAAAA. induction rrset as [|rr rrset IH]; [done|].
    assert (Hrr : dns.wireRR rr = true) by (apply Hw; by left).
    assert (IH' : omap addrOf
                    (filter (fun rr => dns.Rrtype (dns.Header rr) ∈ qtypes)
                            rrset) = [])
      by (apply IH; intros x Hx; apply Hw; by right).
    destruct (decide (dns.Rrtype (dns.Header rr) ∈ qtypes)) as [Hin|Hnin].
    + rewrite filter_cons_True by done. cbn.
      destruct (addrOf rr) as [ip|] eqn:E; [|done].
      destruct (proj1 (wireRR_addrOf rr Hrr)) as [Ht|Ht]; [by eexists|..];
        rewrite Ht in Hin; done.
    + by rewrite filter_cons_False.
Qed.

Lemma extractIP_extractRR_wire_witness :
  extractIP (extractRR
               [dns.A (TestNet.hdr "ns1.example.com." dns.TypeA)
                      (net.IPv4 203 0 113 1);
                dns.NS (TestNet.hdr "example.com." dns.TypeNS)
                       "ns1.example.com.";
                dns.AAAA (TestNet.hdr "ns1.example.com." dns.TypeAAAA)
                         (net.IPv4 203 0 113 2)]
               [dns.TypeA; dns.TypeAAAA])
  = extractIP
      [dns.A (TestNet.hdr "ns1.example.com." dns.TypeA)
             (net.IPv4 203 0 113 1);
       dns.NS (TestNet.hdr "example.com." dns.TypeNS) "ns1.example.com.";
       dns.AAAA (TestNet.hdr "ns1.example.com." dns.TypeAAAA)
                (net.IPv4 203 0 113 2)]
  /\ extractIP (extractRR
                  [dns.A (TestNet.hdr "ns1.example.com." dns.TypeA)
                         (net.IPv4 203 0 113 1);
                   dns.NS (TestNet.hdr "example.com." dns.TypeNS)
                          "ns1.example.com.";
                   dns.AAAA (TestNet.hdr "ns1.example.com." dns.TypeAAAA)
                            (net.IPv4 203 0 113 2)]
                  [dns.TypeNS])
     = [].
Proof.
  destruct (extractIP_extractRR_wire
              [dns.A (TestNet.hdr "ns1.example.com." dns.TypeA)
                     (net.IPv4 203 0 113 1);
               dns.NS (TestNet.hdr "example.com." dns.TypeNS)
                      "ns1.example.com.";
               dns.AAAA (TestNet.hdr "ns1.example.com." dns.TypeAAAA)
                        (net.IPv4 203 0 113 2)]
              [dns.TypeNS] eq_refl) as [Hall Hnone].
  split; [exact Hall|].
  apply Hnone; intros Hin%list_elem_of_singleton; discriminate Hin.
Defined.

(** X4. [extractRRMsg] accepts a nil message, for which it returns the
    empty list; for a message it returns records of its answer section
    only, in their order, all of a requested type, and all the answer
    records of a requested type. *)
Theorem extractRRMsg_answer (msg : option dns.Msg) (qtypes : list N) :
  extractRRMsg None qtypes = []
  /\ extractRRMsg msg qtypes
     `sublist_of` from_option dns.Answer [] msg
  /\ forall rr,
      rr ∈ extractRRMsg msg qtypes
      <-> rr ∈ from_option dns.Answer [] msg
          /\ dns.Rrtype (dns.Header rr) ∈ qtypes.
Proof.
  split; [done|]. destruct msg as [m|]; simpl.
  - rewrite extractRR_filter. split; [apply sublist_filter|].
    intros rr. rewrite list_elem_of_filter. tauto.
  - split; [done|]. intros rr. rewrite elem_of_nil. tauto.
Qed.

(** ** The exchange of [query] *)

Section QueryProperties.
Context `{Env}.

(** X5. [query] draws one message identifier and makes exactly one
    exchange, with port 53 of the server. The message it sends asks for
    recursion and holds exactly one question: the fully qualified name, the
    requested type and the Internet class. Without [sec] checking is
    disabled and no EDNS0 record is sent; with [sec] checking is enabled
    and the EDNS0 record announces 4096 bytes with the DO bit. A transport
    error is handed on; a reply with a response code other than success is
    an error; a response is handed back only with the response code
    success, together with the server and the round-trip time. *)
Theorem query_one_exchange (q : string) (qtype : N) (server : string)
        (sec : bool) (w : World) :
  exists m ex w2,
    Exchange m (JoinHostPort server "53") (dns_Id w).2 = (ex, w2)
    /\ dns.Id m = (dns_Id w).1
    /\ dns.RecursionDesired m = true
    /\ dns.CheckingDisabled m = negb sec
    /\ dns.Questions m = [dns.mkQuestion (dns_Fqdn q) qtype dns.ClassINET]
    /\ dns.Edns0 m = (if sec then Some (4096%N, true) else None)
    /\ match ex with
       | dns.ExchangeErr err => query q qtype server sec w = (Err err, w2)
       | dns.ExchangeOk reply rtt =>
           if dns.Rcode reply =? 0
           then query q qtype server sec w
                = (Ok (mkResponse reply server rtt), w2)
           else query q qtype server sec w
                = (Err ("failure: " +:+ dns_RcodeToString (dns.Rcode reply)),
                   w2)
       end
    /\ match query q qtype server sec w with
       | (Ok res, _) => dns.Rcode (Response_Msg res) = 0
                        /\ Response_Server res = server
       | (Err _, _) => True
       end.
Proof.
  rewrite query_exchange. unfold queryMsg.
  destruct (dns_Id w) as [id w1]. cbn [fst snd].
  destruct (Exchange (dns.mkMsg id true (negb sec) 0
                       [dns.mkQuestion (dns_Fqdn q) qtype dns.ClassINET] []
                       (if sec then Some (4096%N, true) else None))
                     (JoinHostPort server "53") w1) as [ex w2] eqn:Hex.
  eexists _, ex, w2. split; [exact Hex|]. cbn.
  repeat (split; [done|]).
  destruct ex as [reply rtt|err]; [|done].
  destruct (dns.Rcode reply =? 0) eqn:Hrc; [|done].
  split; [done|]. cbn. by apply Z.eqb_eq in Hrc.
Qed.

(** X6. On wire messages a successful [queryRRset] returns records of the
    Go type of the requested type only: A records for type A, AAAA records
    for type AAAA, NS records for type NS, and none of the three for any
    other type. *)
Theorem queryRRset_record_types (q : string) (qtype : N) (server : string)
        (sec : bool) (w w' : World) (rrset : list dns.RR) (rtt : Z) :
  wireExchange ->
  queryRRset q qtype server sec w = (Ok (rrset, rtt), w') ->
  (qtype = dns.TypeA -> Forall isA rrset)
  /\ (qtype = dns.TypeAAAA -> Forall isAAAA rrset)
  /\ (qtype = dns.TypeNS -> Forall isNS rrset)
  /\ (qtype <> dns.TypeA -> qtype <> dns.TypeAAAA -> qtype <> dns.TypeNS ->
      Forall (fun rr => ~ isA rr /\ ~ isAAAA rr /\ ~ isNS rr) rrset).
Proof.
  intros Hwire Hq.
  destruct (queryRRset_wire _ _ _ _ _ _ _ _ Hwire Hq) as [_ Hall].
  repeat split; intros; (eapply Forall_impl; [exact Hall|]);
    intros rr [Hw Ht]; cbn beta.
  - apply wireRR_type in Hw as (_ & Hw & _). apply Hw. congruence.
  - apply wireRR_type in Hw as (_ & _ & Hw). apply Hw. congruence.
  - apply wireRR_type in Hw as (Hw & _). apply Hw. congruence.
  - subst qtype. destruct rr as [h a|h a|h ns|h d]; simpl in *;
      apply bool_decide_eq_true in Hw || idtac;
      repeat split; intros (? & ? & [=]); subst; done.
Qed.

Lemma getIP_length_wire (host : string) (qtype : N) (server : string)
      (w : World) :
  wireExchange ->
  qtype = dns.TypeA \/ qtype = dns.TypeAAAA ->
  length (getIP host qtype server w).1
  = length (lookupRecords (queryRRset host qtype server false w).1).
Proof.
  intros Hwire Hqt. rewrite getIP_lookup. cbn [fst].
  destruct (queryRRset host qtype server false w)
    as [[[rrset rtt]|e] w'] eqn:Hq; [|done]. cbn.
  destruct (queryRRset_wire _ _ _ _ _ _ _ _ Hwire Hq) as [_ Hall].
  destruct Hqt as [-> | ->].
  - assert (HA : Forall isA rrset).
    { eapply Forall_impl; [exact Hall|]. intros rr [Hw Ht].
      by apply wireRR_type in Hw as (_ & Hw & _); apply Hw. }
    apply Forall_isA in HA as [recs ->].
    by rewrite extractIP_A, length_fmap, length_map.
  - assert (HA : Forall isAAAA rrset).
    { eapply Forall_impl; [exact Hall|]. intros rr [Hw Ht].
      by apply wireRR_type in Hw as (_ & _ & Hw); apply Hw. }
    apply Forall_isAAAA in HA as [recs ->].
    by rewrite extractIP_AAAA, length_fmap, length_map.
Qed.

(** X7. [getIP] never fails and makes the one exchange of its lookup. On
    wire messages, for the types A and AAAA it returns one address per
    record of the lookup, hence no address exactly when the lookup fails;
    for any other type it returns no address at all. *)
Theorem getIP_addresses (host : string) (qtype : N) (server : string)
        (w : World) :
  wireExchange ->
  (getIP host qtype server w).2 = (queryRRset host qtype server false w).2
  /\ (qtype = dns.TypeA \/ qtype = dns.TypeAAAA ->
      length (getIP host qtype server w).1
      = length (lookupRecords (queryRRset host qtype server false w).1)
      /\ ((getIP host qtype server w).1 = []
          <-> isErr (queryRRset host qtype server false w).1))
  /\ (qtype <> dns.TypeA -> qtype <> dns.TypeAAAA ->
      (getIP host qtype server w).1 = []).
Proof.
  intros Hwire. split; [by rewrite getIP_lookup|]. split.
  - intros Hqt. pose proof (getIP_length_wire host _ server w Hwire Hqt) as Hl.
    split; [done|].
    destruct (queryRRset host qtype server false w)
      as [[[rrset rtt]|e] w'] eqn:Hq; cbn in *.
    + apply queryRRset_Ok in Hq as (_ & _ & _ & _ & _ & _ & _ & Hne).
      split; [|done]. intros Hnil. rewrite Hnil in Hl.
      destruct rrset; done.
    + split; [done|]. intros _. by destruct (getIP host qtype server w).1.
  - intros HnA HnAAAA. rewrite getIP_lookup. cbn [fst].
    destruct (queryRRset host qtype server false w)
      as [[[rrset rtt]|e] w'] eqn:Hq; [|done]. cbn.
    destruct (queryRRset_wire _ _ _ _ _ _ _ _ Hwire Hq) as [_ Hall].
    rewrite extractIP_omap. clear Hq.
    induction Hall as [|rr rrset [Hw Ht] _ IH]; [done|]. cbn.
    destruct (addrOf rr) as [ip|] eqn:E; [|done].
    destruct (proj1 (wireRR_addrOf rr Hw)) as [Ht'|Ht']; [by eexists|..];
      congruence.
Qed.

End QueryProperties.

Lemma queryRRset_record_types_witness :
  Forall isA [dns.A (TestNet.hdr "ns1.example.com." dns.TypeA)
                    (net.IPv4 203 0 113 1)].
Proof.
  apply (@queryRRset_record_types TestNet.env "ns1.example.com." dns.TypeA
           "192.0.2.53" false 0%nat 1%nat _ 7000000 TestNet_wire);
    [vm_compute|]; reflexivity.
Defined.

Lemma getIP_addresses_witness :
  (@getIP TestNet.env "ns2.example.com." dns.TypeA "192.0.2.53" 0%nat).1 = []
  <-> isErr (@queryRRset TestNet.env "ns2.example.com." dns.TypeA
                         "192.0.2.53" false 0%nat).1.
Proof.
  apply (proj1 (proj2 (@getIP_addresses TestNet.env "ns2.example.com."
                         dns.TypeA "192.0.2.53" 0%nat TestNet_wire))).
  left. reflexivity.
Defined.

(** ** Invariants of the classifier *)

(** X8. [scanerror] only ever appends to the report: the findings it was
    given are a prefix of the findings it returns, and at most one finding
    is added, which happens only with an error. It reports a failure
    exactly when there is an error or no record. The [domain] argument has
    no influence on the result, and of [results] only that it is empty or
    not. *)
Theorem scanerror_append_only
        (r : Report) (check ns ip domain domain' : string)
        (results results' : list dns.RR) (err : option error) :
  let '(fail, r') := scanerror r check ns ip domain results err in
  Report_Result r `prefix_of` Report_Result r'
  /\ (length (Report_Result r') <= length (Report_Result r) + 1)%nat
  /\ (err = None -> r' = r)
  /\ (fail = true <-> err <> None \/ results = [])
  /\ scanerror r check ns ip domain' results err = (fail, r')
  /\ ((results = [] <-> results' = []) ->
      scanerror r check ns ip domain results' err = (fail, r')).
Proof.
  assert (Hlast : forall (b : bool) (r' : Report) (e : error),
    scanerror r check ns ip domain results (Some e) = (b, r') ->
    scanerror r check ns ip domain' results (Some e) = (b, r')
    /\ scanerror r check ns ip domain results' (Some e) = (b, r')).
  { intros b r' e. unfold scanerror.
    destruct (negb _ && negb _), results, results'; cbn;
      intros Heq; split; exact Heq. }
  destruct err as [e|].
  - destruct (scanerror r check ns ip domain results (Some e))
      as [fail r'] eqn:Hs.
    destruct (Hlast _ _ _ Hs) as [Hd Hr]. unfold scanerror in Hs.
    destruct (negb _ && negb _); rewrite andb_false_r in Hs;
      injection Hs as <- <-; cbn [Report_Result].
    + split; [by eexists|]. split; [rewrite length_app; simpl; lia|].
      split; [done|]. split; [split; [by left|done]|].
      split; [exact Hd|intros _; exact Hr].
    + split; [done|]. split; [lia|].
      split; [done|]. split; [split; [by left|done]|].
      split; [exact Hd|intros _; exact Hr].
  - unfold scanerror. destruct results as [|rr results]; cbn.
    + split; [done|]. split; [lia|]. split; [done|].
      split; [split; [by right|done]|]. split; [done|].
      intros Hiff. rewrite (proj1 Hiff eq_refl). done.
    + split; [done|]. split; [lia|]. split; [done|].
      split; [split; [done|by intros [?|?]]|]. split; [done|].
      intros Hiff. destruct results' as [|rr' results']; [|done].
      by destruct (proj2 Hiff eq_refl).
Qed.

Section ClassifierOnLookups.
Context `{Env}.

(** X9. When the exchange of a lookup succeeds but [queryRRset] fails for
    want of a record of the requested type, the classifier takes the error
    of the lookup for a failure and adds no finding to the report. *)
Theorem scanerror_silent_on_empty_lookup
        (q : string) (qtype : N) (server : string) (sec : bool)
        (w w1 w2 : World) (res : Response) (e : error)
        (r : Report) (check ns ip domain : string) (results : list dns.RR) :
  query q qtype server sec w = (Ok res, w1) ->
  queryRRset q qtype server sec w = (Err e, w2) ->
  extractRR (dns.Answer (Response_Msg res)) [qtype] = []
  /\ scanerror r check ns ip domain results (Some e) = (true, r).
Proof.
  intros Hquery. unfold queryRRset. rewrite Hquery.
  destruct (extractRR _ _) as [|rr rrset]; [|done].
  intros Heq. cbn in Heq. injection Heq as <- <-.
  split; [done|]. apply scanerror_no_rr_silent.
Qed.

End ClassifierOnLookups.

Lemma scanerror_silent_on_empty_lookup_witness :
  scanerror (mkReport []) "AAAA" "ns1.example.com." "203.0.113.1"
            "example.com" [] (Some "no rr for 0x1c")
  = (true, mkReport []).
Proof.
  apply (@scanerror_silent_on_empty_lookup TestNet.env
           "ns1.example.com." dns.TypeAAAA "192.0.2.53" false
           0%nat 1%nat 1%nat
           (mkResponse (TestNet.reply 0 []) "192.0.2.53" 7000000));
    vm_compute; reflexivity.
Defined.

(** ** More on the topology checks *)

(** X10. On lists short enough for the counters, [isSameSubnet] depends
    on the set of the addresses only, and it is kept by taking addresses
    away: when it holds of a list it holds of every list made of addresses
    of that list, whatever their order and repetition. *)
Theorem isSameSubnet_subset (ips ips' : list net.IP) :
  Z.of_nat (length ips) < 2 ^ 32 ->
  Z.of_nat (length ips') < 2 ^ 32 ->
  ips' ⊆ ips ->
  isSameSubnet ips = true -> isSameSubnet ips' = true.
Proof.
  intros Hlen Hlen' Hsub.
  rewrite (isSameSubnet_pairs ips Hlen), (isSameSubnet_pairs ips' Hlen').
  cbn zeta. rewrite (proj2 (pairsContained_same24 ips)),
    (proj2 (pairsContained_same24 ips')).
  intros Hall a b Ha Hb. apply Hall; by apply Hsub.
Qed.

Lemma isSameSubnet_subset_witness :
  isSameSubnet [net.IPv4 10 0 0 3; net.IPv4 10 0 0 1; net.IPv4 10 0 0 3]
  = true.
Proof.
  apply (isSameSubnet_subset
           [net.IPv4 10 0 0 1; net.IPv4 10 0 0 2; net.IPv4 10 0 0 3]).
  - vm_compute. reflexivity.
  - vm_compute. reflexivity.
  - intros x Hx. rewrite !elem_of_cons in Hx. rewrite !elem_of_cons.
    destruct Hx as [->|[->|[->|Hx]]]; auto.
  - vm_compute. reflexivity.
Defined.

(** X11. A list with at most one address that has an IPv4 form passes
    [isSameSubnet], however many other addresses it holds: the check cannot
    tell a single nameserver from a clustered set. *)
Theorem isSameSubnet_at_most_one_IPv4 (ips : list net.IP) :
  (length (List.filter hasTo4 ips) <= 1)%nat -> isSameSubnet ips = true.
Proof.
  intros Hk. unfold isSameSubnet.
  rewrite collectNets_eq, countContained_eq, length_map.
  destruct (pairsContained_same24 ips) as [_ Hiff]. cbn zeta in Hiff.
  rewrite (proj2 Hiff).
  - destruct (length (List.filter hasTo4 ips)) as [|[|k]]; [done|done|lia].
  - intros a b Ha Hb Ha4 Hb4.
    assert (Ha' : a ∈ List.filter hasTo4 ips)
      by by apply elem_of_filter_hasTo4.
    assert (Hb' : b ∈ List.filter hasTo4 ips)
      by by apply elem_of_filter_hasTo4.
    destruct (List.filter hasTo4 ips) as [|x [|y l]]; simpl in Hk; [| |lia].
    + by apply elem_of_nil in Ha'.
    + apply list_elem_of_singleton in Ha', Hb'. subst.
      apply Contains_net24; [done|].
      destruct Ha4 as [a4 Ha4]. unfold net24.
      rewrite CIDRMask_24. destruct (To4_quad _ _ Ha4) as (a0&a1&a2&a3&->).
      rewrite (Contains_v4 _ _ _ _ _ _ _ _ _ _ Ha4), Ha4.
      by rewrite !bool_decide_eq_true_2.
Qed.

Lemma isSameSubnet_at_most_one_IPv4_witness :
  isSameSubnet [net.IPv4 198 51 100 7;
                [x20; x01; x0d; xb8; x00; x00; x00; x00;
                 x00; x00; x00; x00; x00; x00; x00; x01];
                [x20; x01; x0d; xb8; x00; x01; x00; x00;
                 x00; x00; x00; x00; x00; x00; x00; x02]] = true.
Proof.
  apply isSameSubnet_at_most_one_IPv4. vm_compute. lia.
Defined.

(** X12. [isRFC1918] looks at the IPv4 form of the address only: the
    4-byte and the 16-byte form of an address get the same answer, and an
    address without an IPv4 form, nil or IPv6, is never private for it,
    whatever its bytes. *)
Theorem isRFC1918_IPv4_form (ip : net.IP) :
  isRFC1918 ip
  = match net.To4 ip with
    | Some ip4 => isRFC1918 ip4
    | None => false
    end.
Proof.
  rewrite isRFC1918_bytes. destruct (net.To4 ip) as [ip4|] eqn:E; [|done].
  destruct (To4_quad _ _ E) as (a & b & c & d & ->).
  by rewrite isRFC1918_bytes, To4_four.
Qed.

(** ** Walking up the tree with [getParentDomain] *)

Lemma length_append (a b : string) :
  String.length (a +:+ b) = (String.length a + String.length b)%nat.
Proof.
  induction a as [|c a IH]; [done|].
  change (S (String.length (a +:+ b)) = S (String.length a + String.length b)).
  by rewrite IH.
Qed.

(** One step up: the root, or a shorter, non-empty name that the domain
    ends with. *)
Lemma getParentDomain_step (domain : string) :
  getParentDomain domain = "."
  \/ ((String.length (getParentDomain domain) < String.length domain)%nat
      /\ getParentDomain domain <> ""
      /\ exists label, domain = label +:+ "." +:+ getParentDomain domain).
Proof.
  unfold getParentDomain, dns.NextLabel.
  case_bool_decide as Hempty; [by left|].
  assert (Hlen : (0 + (String.length domain - 1 - 0) + 1
                  = String.length domain)%nat).
  { destruct domain; [done|simpl; lia]. }
  destruct (NextLabel_loop_spec _ _ _ Hlen)
    as [(j & _ & Hb & _ & ->)|[_ Hend]].
  - right. cbn [negb]. replace (Z.to_nat (Z.of_nat j + 1)) with (S j) by lia.
    destruct Hb as (Hdot & _ & Hj).
    destruct (sliceFrom_split domain j "."%char Hdot) as (label & Hl & Hs).
    assert (Hs' : String.length domain
                  = (j + S (String.length (sliceFrom (S j) domain)))%nat).
    { rewrite Hs at 1. rewrite length_append, Hl. done. }
    split; [lia|]. split; [|by exists label].
    intros Hnil. rewrite Hnil in Hs'. simpl in Hs'. lia.
  - left. destruct (dns.NextLabel_loop _ _ _) as [i e]. simpl in Hend.
    by subst e.
Qed.

Lemma getParentDomain_root_iter (n : nat) :
  Nat.iter n getParentDomain "." = ".".
Proof. induction n as [|n IH]; [done|]. simpl. by rewrite IH. Qed.

(** X13. Walking up with [getParentDomain] always ends at the root: the
    result is never empty, it is the root or strictly shorter than the
    domain, and after at most one step more than the domain has bytes every
    further step gives the root. *)
Theorem getParentDomain_reaches_root (domain : string) :
  getParentDomain domain <> ""
  /\ (getParentDomain domain = "."
      \/ (String.length (getParentDomain domain) < String.length domain)%nat)
  /\ exists n, (n <= S (String.length domain))%nat
               /\ forall m, (n <= m)%nat ->
                            Nat.iter m getParentDomain domain = ".".
Proof.
  split; [|split].
  - destruct (getParentDomain_step domain) as [->|(_ & Hne & _)]; done.
  - destruct (getParentDomain_step domain) as [->|(Hlt & _)]; auto.
  - assert (Hreach : forall k d, (String.length d <= k)%nat ->
              exists n, (n <= S (String.length d))%nat
                        /\ Nat.iter n getParentDomain d = ".").
    { induction k as [|k IH]; intros d Hd.
      - exists 1%nat. split; [lia|]. simpl.
        destruct (getParentDomain_step d) as [->|(Hlt & _)]; [done|lia].
      - destruct (getParentDomain_step d) as [Hroot|(Hlt & _)].
        + exists 1%nat. split; [lia|]. done.
        + destruct (IH (getParentDomain d)) as (n & Hn & Hit); [lia|].
          exists (S n). split; [lia|]. by rewrite Nat.iter_succ_r. }
    destruct (Hreach _ domain (le_n _)) as (n & Hn & Hit).
    exists n. split; [done|]. intros m Hm.
    replace m with ((m - n) + n)%nat by lia.
    by rewrite Nat.iter_add, Hit, getParentDomain_root_iter.
Qed.

(** ** The entries of [findNS] *)

Section Entries.
Context `{Env}.

(** X14. In every entry of a successful [findNS] the ownership list runs
    parallel to the address list: one item per address, in the same order,
    each with the name of the nameserver and the address, and with empty
    country, AS number and organisation: [findNS] leaves the ownership
    lookup to its callers. *)
Theorem findNS_info_parallel (domain : string) (w w' : World)
        (nsdatas : list NSData) :
  findNS domain w = (Some (Ok nsdatas), w') ->
  Forall (fun d =>
            length (NSData_Info d) = length (NSData_IP d)
            /\ forall i info,
                NSData_Info d !! i = Some info ->
                NSData_IP d !! i = Some (IPInfo_IP (NSInfo_IPInfo info))
                /\ NSInfo_Name info = NSData_Name d
                /\ IPInfo_Country (NSInfo_IPInfo info) = ""
                /\ IPInfo_ASN (NSInfo_IPInfo info) = 0
                /\ IPInfo_ISP (NSInfo_IPInfo info) = "") nsdatas.
Proof.
  intros Hfind.
  destruct (queryRRset domain dns.TypeNS resolver false w)
    as [[[rrset rtt]|e0] w1] eqn:Hq;
    [|by rewrite (findNS_lookup_Err _ _ _ _ Hq) in Hfind].
  destruct (findNS_lookup_Ok _ _ _ _ _ Hq) as [_ Hloop].
  destruct (findNS_loop rrset [] w1) as [[ds|] w2] eqn:Hl;
    [|by rewrite Hloop in Hfind].
  destruct Hloop as (_ & _ & Hfind'). rewrite Hfind' in Hfind.
  injection Hfind as -> ->.
  destruct (findNS_loop_entries _ _ _ _ Hl) as [Hlen Hk].
  apply Forall_lookup. intros k d Hd.
  destruct (lookup_lt_is_Some_2 rrset k) as [rr Hrr].
  { rewrite <- Hlen. by eapply lookup_lt_Some. }
  destruct (Hk k rr Hrr) as (h & ns & _ & Hd'). cbn zeta in Hd'.
  rewrite Hd in Hd'. injection Hd' as ->. cbn.
  unfold nsinfosOf. split; [by rewrite length_map|].
  intros i info Hi. rewrite list_lookup_fmap in Hi.
  destruct (_ !! i) as [ip|] eqn:Hip; [|done].
  injection Hi as <-. done.
Qed.

Lemma findNS_loop_panic (rrset : list dns.RR) (acc : list NSData)
      (w : World) :
  (findNS_loop rrset acc w).1 = None
  <-> Exists (fun rr => ~ isNS rr) rrset.
Proof.
  revert acc w. induction rrset as [|rr rrset IH]; intros acc w.
  - split; [done|]. by intros ?%Exists_nil.
  - rewrite Exists_cons. cbn [findNS_loop].
    destruct rr as [h a|h a|h ns|h d];
      try (split; [intros _; left; by intros (? & ? & ?)|done]).
    rewrite findNS_step_NS. cbn zeta. rewrite IH.
    split; [by right|]. intros [Hn|He]; [|done]. destruct Hn.
    by eexists _, _.
Qed.

(** X15. [findNS] panics exactly when the NS lookup succeeds with a record
    that is not of the Go type of NS records, which the type assertion of
    the loop does not survive; wire messages hold no such record, and on
    them [findNS] does not panic. *)
Theorem findNS_panic_iff (domain : string) (w : World) :
  ((findNS domain w).1 = None
   <-> exists rrset rtt,
       (queryRRset domain dns.TypeNS resolver false w).1 = Ok (rrset, rtt)
       /\ Exists (fun rr => ~ isNS rr) rrset)
  /\ (wireExchange -> (findNS domain w).1 <> None).
Proof.
  assert (Hiff : (findNS domain w).1 = None
    <-> exists rrset rtt,
        (queryRRset domain dns.TypeNS resolver false w).1 = Ok (rrset, rtt)
        /\ Exists (fun rr => ~ isNS rr) rrset).
  { unfold findNS.
    destruct (queryRRset domain dns.TypeNS resolver false w)
      as [[[rrset rtt]|e0] w1] eqn:Hq; cbn [fst].
    - pose proof (findNS_loop_panic rrset [] w1) as Hp.
      destruct (findNS_loop rrset [] w1) as [[ds|] w2]; cbn [fst] in *.
      + split.
        * by destruct (length ds =? 0)%nat.
        * intros (rrset' & rtt' & [= <- <-] & He). by apply Hp in He.
      + split; [|done]. intros _. exists rrset, rtt. split; [done|].
        by apply Hp.
    - split; [done|]. by intros (? & ? & ? & _). }
  split; [exact Hiff|]. intros Hwire Hnone.
  apply Hiff in Hnone as (rrset & rtt & Hq & He).
  destruct (queryRRset domain dns.TypeNS resolver false w)
    as [r w1] eqn:Hq'. cbn in Hq. subst r.
  destruct (queryRRset_wire _ _ _ _ _ _ _ _ Hwire Hq') as [_ Hall].
  apply Exists_exists in He as (rr & Hin & Hn). destruct Hn.
  rewrite Forall_forall in Hall. destruct (Hall rr Hin) as [Hw Ht].
  by apply wireRR_type in Hw as [Hw _]; apply Hw.
Qed.

End Entries.

Lemma findNS_info_parallel_witness :
  Forall (fun d =>
            length (NSData_Info d) = length (NSData_IP d)
            /\ forall i info,
                NSData_Info d !! i = Some info ->
                NSData_IP d !! i = Some (IPInfo_IP (NSInfo_IPInfo info))
                /\ NSInfo_Name info = NSData_Name d
                /\ IPInfo_Country (NSInfo_IPInfo info) = ""
                /\ IPInfo_ASN (NSInfo_IPInfo info) = 0
                /\ IPInfo_ISP (NSInfo_IPInfo info) = "") testNSData.
Proof.
  apply (@findNS_info_parallel TestNet.env "example.com" 0%nat 5%nat).
  vm_compute. reflexivity.
Defined.

Lemma findNS_panic_iff_witness :
  (@findNS TestNet.env "example.com" 0%nat).1 <> None.
Proof.
  apply (proj2 (@findNS_panic_iff TestNet.env "example.com" 0%nat)).
  exact TestNet_wire.
Defined.

(** ** The classifier on a name that does not exist *)

Section ClassifierOnNXDOMAIN.
Context `{Env}.

(** X16. With the library's name [NXDOMAIN] for the response code 3, a
    lookup answered with that code fails with the error
    [failure: NXDOMAIN], and the classifier takes it for a failure without
    adding a finding to the report. *)
Theorem scanerror_silent_on_NXDOMAIN
        (q : string) (qtype : N) (server : string) (sec : bool)
        (w w2 : World) (reply : dns.Msg) (rtt : Z)
        (r : Report) (check ns ip domain : string) (results : list dns.RR) :
  dns_RcodeToString 3 = "NXDOMAIN" ->
  Exchange (queryMsg q qtype sec w).1 (JoinHostPort server "53")
           (queryMsg q qtype sec w).2
  = (dns.ExchangeOk reply rtt, w2) ->
  dns.Rcode reply = 3 ->
  queryRRset q qtype server sec w = (Err "failure: NXDOMAIN", w2)
  /\ scanerror r check ns ip domain results (Some "failure: NXDOMAIN")
     = (true, r).
Proof.
  intros Hname Hex Hrc. split.
  - pose proof (queryRRset_cases q qtype server sec w) as Hq.
    destruct (queryMsg q qtype sec w) as [m w1]. cbn [fst snd] in Hex.
    rewrite Hex, Hrc in Hq. cbn in Hq. by rewrite Hname in Hq.
  - unfold scanerror. by destruct results.
Qed.

End ClassifierOnNXDOMAIN.

Lemma scanerror_silent_on_NXDOMAIN_witness :
  @queryRRset NXNet.env "nosuchname.example" dns.TypeNS "192.0.2.53" false
              0%nat
  = (Err "failure: NXDOMAIN", 1%nat)
  /\ scanerror (mkReport []) "NS" "192.0.2.53" "192.0.2.53"
               "nosuchname.example" [] (Some "failure: NXDOMAIN")
     = (true, mkReport []).
Proof.
  apply (@scanerror_silent_on_NXDOMAIN NXNet.env "nosuchname.example"
           dns.TypeNS "192.0.2.53" false 0%nat 1%nat
           (TestNet.reply 3 []) 5000000); reflexivity.
Defined.

(** ** The record map: [rrset2map] *)

Section RRsetMapProperties.
Context `{Countable RRptr}.




End RRsetMapProperties.
